(** * Near-Earth objects: record construction, filters, limit and CSV export

    A shallow embedding of [models.py], [filters.py], [extract.py] and
    [write.py].  Python values are a small tagged union, exceptions are an
    error monad, dictionaries are [gmap]s keyed by strings, and generators
    are explicit state machines with a [next] function. *)

From Stdlib Require Import ZArith PrimFloat Lia Ascii String.
From Stdlib Require Uint63 SpecFloat FloatOps FloatAxioms.
From stdpp Require Import base option list strings gmap.

Local Open Scope Z_scope.
Set Warnings "-inexact-float".

(** ** Python values and exceptions *)

Inductive exn :=
  | TypeError
  | ValueError
  | KeyError
  | AttributeError
  | UnsupportedCriterionError.

Inductive result (A : Type) :=
  | Ok (a : A)
  | Raise (e : exn).
Arguments Ok {A} a.
Arguments Raise {A} e.

#[global] Instance result_ret : MRet result := @Ok.
#[global] Instance result_bind : MBind result := λ A B f m,
  match m with
  | Ok a => f a
  | Raise e => Raise e
  end.
#[global] Instance result_fmap : FMap result := λ A B f m,
  match m with
  | Ok a => Ok (f a)
  | Raise e => Raise e
  end.

(** [datetime.date]: a calendar day. *)
Record date := Date { year : Z; month : Z; day : Z }.

(** [datetime.datetime] at the minute precision of the data set. *)
Record datetime := DateTime { dt_date : date; hour : Z; minute : Z }.

(** The values this code is handed by the loaders and the command line:
    [None], booleans, floats, text, days and date-times. *)
Inductive pyval :=
  | VNone
  | VBool (b : bool)
  | VFloat (f : float)
  | VStr (s : string)
  | VDate (d : date)
  | VDateTime (t : datetime).

(** Lexicographic comparison of [(year, month, day)], as [date.__eq__] and
    [date.__le__] do. *)
Definition date_eqb (a b : date) : bool :=
  (year a =? year b) && (month a =? month b) && (day a =? day b).

Definition date_leb (a b : date) : bool :=
  if year a =? year b then
    if month a =? month b then day a <=? day b
    else month a <? month b
  else year a <? year b.

Definition datetime_eqb (a b : datetime) : bool :=
  date_eqb (dt_date a) (dt_date b) && (hour a =? hour b) && (minute a =? minute b).

Definition datetime_leb (a b : datetime) : bool :=
  if date_eqb (dt_date a) (dt_date b) then
    if hour a =? hour b then minute a <=? minute b
    else hour a <? hour b
  else date_leb (dt_date a) (dt_date b).

(** [bool] is a numeric type in Python: [True == 1.0]. *)
Definition float_of_bool (b : bool) : float :=
  if b then 1%float else 0%float.

Definition as_number (v : pyval) : option float :=
  match v with
  | VBool b => Some (float_of_bool b)
  | VFloat f => Some f
  | _ => None
  end.

(** [bool(v)]. *)
Definition truthy (v : pyval) : bool :=
  match v with
  | VNone => false
  | VBool b => b
  | VFloat f => negb (PrimFloat.eqb f 0%float)
  | VStr s => negb (String.eqb s "")
  | VDate _ | VDateTime _ => true
  end.

(** [a == b]; never raises. *)
Definition py_eq (a b : pyval) : bool :=
  match a, b with
  | VNone, VNone => true
  | VStr s, VStr t => String.eqb s t
  | VDate d, VDate e => date_eqb d e
  | VDateTime d, VDateTime e => datetime_eqb d e
  | _, _ =>
      match as_number a, as_number b with
      | Some x, Some y => PrimFloat.eqb x y
      | _, _ => false
      end
  end.

(** [a <= b]; raises [TypeError] between unordered types. *)
Definition py_le (a b : pyval) : result bool :=
  match a, b with
  | VStr s, VStr t => Ok (String.leb s t)
  | VDate d, VDate e => Ok (date_leb d e)
  | VDateTime d, VDateTime e => Ok (datetime_leb d e)
  | _, _ =>
      match as_number a, as_number b with
      | Some x, Some y => Ok (PrimFloat.leb x y)
      | _, _ => Raise TypeError
      end
  end.

(** [a >= b]. *)
Definition py_ge (a b : pyval) : result bool := py_le b a.

(** [a or b]. *)
Definition py_or (a b : pyval) : pyval := if truthy a then a else b.

(** [d.get(k)] and [d.get(k, dflt)]. *)
Definition dict_get (d : gmap string pyval) (k : string) : pyval :=
  default VNone (d !! k).

Definition dict_get_default (d : gmap string pyval) (k : string) (dflt : pyval) : pyval :=
  default dflt (d !! k).

(** [d[k]]. *)
Definition dict_getitem (d : gmap string pyval) (k : string) : result pyval :=
  match d !! k with
  | Some v => Ok v
  | None => Raise KeyError
  end.

(** ** models.py *)

Record NearEarthObject := {
  name : pyval;
  designation : pyval;
  diameter : pyval;
  hazardous : pyval;
  (* positions of the linked approaches in the database's collection;
     empty until the database links them *)
  approaches : list nat
}.

Record CloseApproach := {
  _designation : pyval;
  time : datetime;
  distance : pyval;
  velocity : pyval;
  (* [None] until the database links the approach to its NEO *)
  neo : option NearEarthObject
}.

Section Models.

(** The interpreter's conversion of text to a float: [None] stands for
    the [ValueError] that [float(s)] raises on text that is no number. *)
Variable float_of_string : string → option float.

(** [helpers.cd_to_datetime] and [helpers.datetime_to_str]: the helpers
    module is imported by [models.py]; it parses and prints the calendar
    date-time text of the data set. *)
Variable cd_to_datetime : pyval → result datetime.
Variable datetime_to_str : datetime → string.

(** The builtin [float(value)]. *)
Definition py_float (value : pyval) : result float :=
  match value with
  | VFloat f => Ok f
  | VBool b => Ok (float_of_bool b)
  | VStr s =>
      match float_of_string s with
      | Some f => Ok f
      | None => Raise ValueError
      end
  | VNone | VDate _ | VDateTime _ => Raise TypeError
  end.

(** [try: return float(value) except ValueError: return float('nan')] *)
Definition isDigitorNone (value : pyval) : result pyval :=
  match py_float value with
  | Ok f => Ok (VFloat f)
  | Raise ValueError => Ok (VFloat nan)
  | Raise e => Raise e
  end.

(** [NearEarthObject.__init__], called with keyword arguments [info] *)
Definition NearEarthObject_init (info : gmap string pyval) : result NearEarthObject :=
  let name0 := dict_get info "name" in
  let name1 := if py_eq name0 (VStr " ") || py_eq name0 (VStr "") then VNone else name0 in
  let designation0 := dict_get info "designation" in
  diameter0 ← isDigitorNone (dict_get info "diameter");
  let hazardous0 := dict_get info "hazardous" in
  Ok {| name := name1; designation := designation0; diameter := diameter0;
        hazardous := hazardous0; approaches := [] |}.

(** [NearEarthObject.serialize] *)
Definition NearEarthObject_serialize (self : NearEarthObject) : gmap string pyval :=
  {[ "designation" := (if truthy (designation self) then designation self else VStr "");
     "name" := (if truthy (name self) then name self else VStr "");
     "diameter_km" := (match diameter self with VNone => VFloat nan | d => d end);
     "potentially_hazardous" := hazardous self ]}.

(** [type(v) is not float] *)
Definition is_not_float (v : pyval) : bool :=
  match v with
  | VFloat _ => false
  | _ => true
  end.

(** [CloseApproach.__init__] on keyword arguments; the [neo] keyword holds an object
    reference and is passed apart from the scalar attributes. *)
Definition CloseApproach_init (info : gmap string pyval) (neo0 : option NearEarthObject)
  : result CloseApproach :=
  let designation0 := dict_get info "designation" in
  time0 ← cd_to_datetime (dict_get info "time");
  let distance0 := dict_get info "distance" in
  distance1 ← (if is_not_float distance0 then VFloat <$> py_float distance0
               else Ok distance0);
  let velocity0 := dict_get info "velocity" in
  Ok {| _designation := designation0; time := time0; distance := distance1;
        velocity := velocity0; neo := neo0 |}.

(** [CloseApproach.serialize] *)
Definition CloseApproach_serialize (self : CloseApproach) : gmap string pyval :=
  {[ "datetime_utc" := (if truthy (VDateTime (time self))
                        then VStr (datetime_to_str (time self)) else VStr "");
     "distance_au" := distance self;
     "velocity_km_s" := velocity self ]}.

(** ** extract.py *)

(** The keyword arguments [load_neos] builds from one row of the
    [csv.DictReader], evaluated left to right. *)
Definition neo_of_row (row : gmap string pyval) : result NearEarthObject :=
  name0 ← dict_getitem row "name";
  pdes ← dict_getitem row "pdes";
  diameter0 ← dict_getitem row "diameter";
  pha ← dict_getitem row "pha";
  NearEarthObject_init
    {[ "name" := py_or name0 VNone;
       "designation" := pdes;
       "diameter" := diameter0;
       "hazardous" := VBool (py_eq pha (VStr "Y")) ]}.

(** The loop of [load_neos]: the first exception leaves the loop, the
    handler prints it and the objects built so far are kept. *)
Fixpoint load_neos_rows (rows : list (gmap string pyval)) (neo_list : list NearEarthObject)
  : list NearEarthObject :=
  match rows with
  | [] => neo_list
  | row :: rows' =>
      match neo_of_row row with
      | Ok neObject => load_neos_rows rows' (neo_list ++ [neObject])
      | Raise _ => neo_list
      end
  end.

(** [return neo_list if neo_list else None] *)
Definition load_neos (rows : list (gmap string pyval)) : option (list NearEarthObject) :=
  match load_neos_rows rows [] with
  | [] => None
  | neo_list => Some neo_list
  end.

(** The keyword arguments [load_approaches] builds from one entry. *)
Definition approach_of_entry (entry : gmap string pyval) : result CloseApproach :=
  des ← dict_getitem entry "des";
  cd ← dict_getitem entry "cd";
  dist ← dict_getitem entry "dist";
  dist' ← py_float dist;
  v_rel ← dict_getitem entry "v_rel";
  v_rel' ← py_float v_rel;
  CloseApproach_init
    {[ "designation" := des; "time" := cd;
       "distance" := VFloat dist'; "velocity" := VFloat v_rel' ]} None.

End Models.

(** ** filters.py *)

(** The comparators taken from the [operator] module. *)
Inductive operator := op_eq | op_ge | op_le.

Definition apply_operator (op : operator) (a b : pyval) : result bool :=
  match op with
  | op_eq => Ok (py_eq a b)
  | op_ge => py_ge a b
  | op_le => py_le a b
  end.

(** The base class and its five subclasses; they differ in [get] only. *)
Inductive filter_class :=
  | AttributeFilter
  | DateFilter
  | DistFilter
  | VeloFilter
  | DiamFilter
  | HazFilter.

Record filter := { cls : filter_class; op : operator; value : pyval }.

(** [datetime.date()] *)
Definition date_of (t : datetime) : date := dt_date t.

(** [approach.neo.attr]: reading an attribute of [None] raises. *)
Definition linked_neo (approach : CloseApproach) : result NearEarthObject :=
  match neo approach with
  | Some n => Ok n
  | None => Raise AttributeError
  end.

Definition neo_attr (attr : NearEarthObject → pyval) (approach : CloseApproach) : result pyval :=
  attr <$> linked_neo approach.

(** The class method [get] of each class. *)
Definition get (c : filter_class) (approach : CloseApproach) : result pyval :=
  match c with
  | AttributeFilter => Raise UnsupportedCriterionError
  | DateFilter => Ok (VDate (date_of (time approach)))
  | DistFilter => Ok (distance approach)
  | VeloFilter => Ok (velocity approach)
  | DiamFilter => neo_attr diameter approach
  | HazFilter => neo_attr hazardous approach
  end.

(** [AttributeFilter.__call__]: [self.op(self.get(approach), self.value)] *)
Definition call (self : filter) (approach : CloseApproach) : result bool :=
  v ← get (cls self) approach;
  apply_operator (op self) v (value self).

(** The dictionary [filter_mappings], in the order [items()] walks it. *)
Definition filter_mappings : list (string * (filter_class * operator)) :=
  [ ("date", (DateFilter, op_eq));
    ("start_date", (DateFilter, op_ge));
    ("end_date", (DateFilter, op_le));
    ("distance_min", (DistFilter, op_ge));
    ("distance_max", (DistFilter, op_le));
    ("velocity_min", (VeloFilter, op_ge));
    ("velocity_max", (VeloFilter, op_le));
    ("diameter_min", (DiamFilter, op_ge));
    ("diameter_max", (DiamFilter, op_le));
    ("hazardous", (HazFilter, op_eq)) ]%string.

(** [v is not None] *)
Definition is_not_None (v : pyval) : bool :=
  match v with
  | VNone => false
  | _ => true
  end.

Definition create_filters
    (date start_date end_date distance_min distance_max
     velocity_min velocity_max diameter_min diameter_max hazardous : pyval)
  : list filter :=
  let filter_values : gmap string pyval :=
    <["date" := date]> (<["start_date" := start_date]> (<["end_date" := end_date]> (
    <["distance_min" := distance_min]> (<["distance_max" := distance_max]> (
    <["velocity_min" := velocity_min]> (<["velocity_max" := velocity_max]> (
    <["diameter_min" := diameter_min]> (<["diameter_max" := diameter_max]> (
    <["hazardous" := hazardous]> ∅))))))))) in
  foldl (λ filters '(key, (filter_class, op)),
           let value := dict_get filter_values key in
           if is_not_None value
           then filters ++ [ {| cls := filter_class; op := op; value := value |} ]
           else filters)
        [] filter_mappings.

(** *** Iterators and generators

    An iterator is a state with a [next] function: [Ok (Some x, s')] hands
    out an item, [Ok (None, s')] is [StopIteration], [Raise e] is an
    exception that escapes from [next]. *)
Class Iterator (S A : Type) := next : S → result (option A * S).
#[global] Hint Mode Iterator ! - : typeclass_instances.

(** The iterator of a list: the state is what has not been pulled yet. *)
#[global] Instance list_iterator {A} : Iterator (list A) A := λ l,
  match l with
  | [] => Ok (None, [])
  | x :: l' => Ok (Some x, l')
  end.

(** A consumer that asks for items until [StopIteration], at most [fuel]
    times: the items it received and the state it left behind. *)
Fixpoint consume {S A} `{!Iterator S A} (fuel : nat) (s : S) : result (list A * S) :=
  match fuel with
  | O => Ok ([], s)
  | Datatypes.S fuel' =>
      r ← next s;
      match r with
      | (None, s') => Ok ([], s')
      | (Some x, s') =>
          r' ← consume fuel' s';
          Ok (x :: r'.1, r'.2)
      end
  end.

(** Where the generator [limit] is suspended. *)
Inductive limit_pc :=
  | LimitStart                    (* created, body not entered yet *)
  | LimitYieldFrom                (* inside [yield from iterator] *)
  | LimitLoop (n count : Z)       (* at [yield item], before [count += 1] *)
  | LimitDone.                    (* returned *)

Record limit_gen (S : Type) := LimitGen {
  limit_n : option Z;
  pc : limit_pc;
  iterator : S
}.
Arguments LimitGen {S} _ _ _.
Arguments limit_n {S} _.
Arguments pc {S} _.
Arguments iterator {S} _.

(** Calling [limit(iterator, n)] creates the generator; nothing runs. *)
Definition limit {S} (iterator : S) (n : option Z) : limit_gen S :=
  LimitGen n LimitStart iterator.

Section Limit.
Context {S A : Type} `{!Iterator S A}.

(** One step of [yield from iterator]. *)
Definition limit_yield_from (n : option Z) (it : S) : result (option A * limit_gen S) :=
  r ← next it;
  match r with
  | (Some item, it') => Ok (Some item, LimitGen n LimitYieldFrom it')
  | (None, it') => Ok (None, LimitGen n LimitDone it')
  end.

(** The head of [for item in iterator] followed by the loop body up to
    its [yield]: the item is pulled first, [count >= n] is tested next. *)
Definition limit_for (n0 : option Z) (n count : Z) (it : S) : result (option A * limit_gen S) :=
  r ← next it;
  match r with
  | (Some item, it') =>
      if count >=? n then Ok (None, LimitGen n0 LimitDone it')
      else Ok (Some item, LimitGen n0 (LimitLoop n count) it')
  | (None, it') => Ok (None, LimitGen n0 LimitDone it')
  end.

Definition limit_next (g : limit_gen S) : result (option A * limit_gen S) :=
  match pc g with
  | LimitStart =>
      match limit_n g with
      | None => limit_yield_from (limit_n g) (iterator g)
      | Some n =>
          if n =? 0 then limit_yield_from (limit_n g) (iterator g)
          else limit_for (limit_n g) n 0 (iterator g)
      end
  | LimitYieldFrom => limit_yield_from (limit_n g) (iterator g)
  | LimitLoop n count => limit_for (limit_n g) n (count + 1) (iterator g)
  | LimitDone => Ok (None, g)
  end.

#[global] Instance limit_iterator : Iterator (limit_gen S) A := limit_next.
End Limit.

(** ** The query engine *)

(** Modelled from the spec: whether a record matches a collection of
    filters ([database.py], which holds [NEODatabase.query], is not among
    the sources).  The spec: "a record matches iff every filter returns
    true, including the vacuous case of zero filters"; "filtering
    short-circuits per record (reject on first failing filter)". *)
Fixpoint matches (filters : list filter) (approach : CloseApproach) : result bool :=
  match filters with
  | [] => Ok true
  | f :: filters' =>
      b ← call f approach;
      if (b : bool) then matches filters' approach else Ok false
  end.

Record query_gen := QueryGen {
  query_filters : list filter;
  query_approaches : list CloseApproach   (* not visited yet, in load order *)
}.

(** Modelled from the spec: one [next] of the query's lazy sequence, which
    walks the collection in load order up to the first match "without
    scanning ahead". *)
Fixpoint query_scan (filters : list filter) (approaches : list CloseApproach)
  : result (option CloseApproach * list CloseApproach) :=
  match approaches with
  | [] => Ok (None, [])
  | approach :: rest =>
      b ← matches filters approach;
      if (b : bool) then Ok (Some approach, rest) else query_scan filters rest
  end.

#[global] Instance query_iterator : Iterator query_gen CloseApproach := λ g,
  r ← query_scan (query_filters g) (query_approaches g);
  Ok (r.1, QueryGen (query_filters g) r.2).

(** Modelled from the spec: [query(filters)] over the database's ordered
    collection of close approaches. *)
Definition query (approaches : list CloseApproach) (filters : list filter) : query_gen :=
  QueryGen filters approaches.

(** ** write.py *)

Section Write.
Variable datetime_to_str : datetime → string.

Definition fieldnames : list string :=
  [ "datetime_utc"; "distance_au"; "velocity_km_s"; "designation"; "name";
    "diameter_km"; "potentially_hazardous" ]%string.

(** [csv.DictWriter.writerow] with the default [restval=''] and
    [extrasaction='raise']: the cells of the row in the order of
    [fieldnames]. *)
Definition writerow (rowdict : gmap string pyval) : result (list pyval) :=
  if bool_decide (dom rowdict ⊆ list_to_set fieldnames)
  then Ok ((λ key, dict_get_default rowdict key (VStr "")) <$> fieldnames)
  else Raise ValueError.

(** The body of the loop of [write_to_csv] for one close approach. *)
Definition csv_row (line : CloseApproach) : result (list pyval) :=
  let approach_data := CloseApproach_serialize datetime_to_str line in
  n ← linked_neo line;
  let neo_data := NearEarthObject_serialize n in
  (* [{**approach_data, **neo_data}]: the later mapping wins *)
  let content := neo_data ∪ approach_data in
  let content := <["name" := dict_get_default content "name" (VStr "")]> content in
  let content :=
    <["potentially_hazardous" :=
        VStr (if truthy (dict_get_default content "potentially_hazardous" (VBool false))
              then "True" else "False")]> content in
  writerow content.

(** The rows [write_to_csv] hands to the writer, the header first; an
    exception stops the export. *)
Fixpoint csv_rows (ca_data : list CloseApproach) : result (list (list pyval)) :=
  match ca_data with
  | [] => Ok []
  | line :: ca_data' =>
      row ← csv_row line;
      rows ← csv_rows ca_data';
      Ok (row :: rows)
  end.

Definition write_to_csv (ca_data : list CloseApproach) : result (list (list pyval)) :=
  rows ← csv_rows ca_data;
  Ok ((VStr <$> fieldnames) :: rows).
End Write.

(** ** extract.py: the close-approach loader *)

(** [dict(pairs)]: a later pair replaces an earlier one under the same key. *)
Definition py_dict (pairs : list (string * pyval)) : gmap string pyval :=
  foldl (λ d p, <[p.1 := p.2]> d) ∅ pairs.

(** What [json.load] returns for the close-approach document, as far as
    [load_approaches] reads it: the values under ["fields"] and ["data"],
    each possibly absent. *)
Record cad_json := CadJson {
  json_fields : option (list string);
  json_data : option (list (list pyval))
}.

Section Loaders.
Variable float_of_string : string → option float.
Variable cd_to_datetime : pyval → result datetime.

(** The loop of [load_approaches]: as in [load_neos], the first exception
    ends it and the approaches built so far are kept. *)
Fixpoint load_approaches_entries (entry_dict : list (gmap string pyval))
    (aproach_list : list CloseApproach) : list CloseApproach :=
  match entry_dict with
  | [] => aproach_list
  | entry :: entry_dict' =>
      match approach_of_entry float_of_string cd_to_datetime entry with
      | Ok apprObj => load_approaches_entries entry_dict' (aproach_list ++ [apprObj])
      | Raise _ => aproach_list
      end
  end.

(** [load_approaches], from the parsed document on.  The comprehension
    reads [json_data["data"]] first and [json_data["fields"]] once per
    value; a missing key raises inside the [try], before any approach is
    built. *)
Definition load_approaches (doc : cad_json) : option (list CloseApproach) :=
  let aproach_list :=
    match json_data doc with
    | None => []
    | Some [] => []
    | Some data =>
        match json_fields doc with
        | None => []
        | Some fields =>
            load_approaches_entries ((λ value, py_dict (zip fields value)) <$> data) []
        end
    end in
  match aproach_list with
  | [] => None
  | _ => Some aproach_list
  end.

End Loaders.

(** ** write.py: the file of the row export, and the hierarchical export *)

Section WriteFiles.
Variable datetime_to_str : datetime → string.

(** What [write_to_csv] leaves in the file and how it ends: the file is
    opened and the header written before the first approach is looked at,
    so an exception leaves the rows written up to it. *)
Fixpoint csv_file_rows (ca_data : list CloseApproach) : list (list pyval) * option exn :=
  match ca_data with
  | [] => ([], None)
  | line :: ca_data' =>
      match csv_row datetime_to_str line with
      | Ok row => (row :: (csv_file_rows ca_data').1, (csv_file_rows ca_data').2)
      | Raise e => ([], Some e)
      end
  end.

Definition write_to_csv_file (ca_data : list CloseApproach) : list (list pyval) * option exn :=
  ((VStr <$> fieldnames) :: (csv_file_rows ca_data).1, (csv_file_rows ca_data).2).

(** One object of the list [json.dump] is handed: the members of the
    object in order, and the members of the object under its last key,
    ["neo"]. *)
Record json_approach := JsonApproach {
  json_members : list (string * pyval);
  json_neo : list (string * pyval)
}.

(** One element of the list comprehension of [write_to_json]. *)
Definition json_entry (line : CloseApproach) : result json_approach :=
  let datetime_utc :=
    dict_get_default (CloseApproach_serialize datetime_to_str line) "datetime_utc" (VStr "") in
  let distance_au :=
    dict_get_default (CloseApproach_serialize datetime_to_str line) "distance_au" (VFloat 0) in
  let velocity_km_s :=
    dict_get_default (CloseApproach_serialize datetime_to_str line) "velocity_km_s" (VFloat 0) in
  n ← linked_neo line;
  let neo_data := NearEarthObject_serialize n in
  Ok {| json_members :=
          [ ("datetime_utc", datetime_utc); ("distance_au", distance_au);
            ("velocity_km_s", velocity_km_s) ]%string;
        json_neo :=
          [ ("designation", dict_get_default neo_data "designation" (VStr ""));
            ("name", dict_get_default neo_data "name" (VStr ""));
            ("diameter_km", dict_get_default neo_data "diameter_km" (VFloat nan));
            ("potentially_hazardous",
              dict_get_default neo_data "potentially_hazardous" (VBool false)) ]%string |}.


End WriteFiles.

(** ** Reference notions the properties are stated against *)

(** Calendar order on days: [a] is the day [b] or an earlier one. *)
Definition on_or_before (a b : date) : Prop :=
  year a < year b
  ∨ (year a = year b
     ∧ (month a < month b ∨ (month a = month b ∧ day a ≤ day b))).

(** What a consumer of the limiter sees of its source: the items and the
    state the source is left in. *)
Definition source_view {S A : Type} (r : list A * limit_gen S) : list A * S :=
  (r.1, iterator r.2).

(** The four columns [load_neos] reads hold text in the row, as they do in
    every row the [csv.DictReader] reads in full. *)
Definition textual_row (row : gmap string pyval) : Prop :=
  ∃ n p d h, row !! "name" = Some (VStr n) ∧ row !! "pdes" = Some (VStr p)
             ∧ row !! "diameter" = Some (VStr d) ∧ row !! "pha" = Some (VStr h).

(** Every filter of the collection returns true on the record. *)
Definition accepts (filters : list filter) (approach : CloseApproach) : bool :=
  forallb (λ f, match call f approach with Ok true => true | _ => false end) filters.

(** [create_filters] adds a filter for a criterion that is not [None]. *)
Definition filter_for (c : filter_class) (o : operator) (v : pyval) : list filter :=
  if is_not_None v then [ {| cls := c; op := o; value := v |} ] else [].

(** ** The helpers and the text-to-float conversion used in examples *)

Module Sample.

Definition digit_of (c : ascii) : option Z :=
  let n := Z.of_N (N_of_ascii c) in
  if (48 <=? n) && (n <=? 57) then Some (n - 48) else None.

Fixpoint digits (s : string) (acc : Z) : option Z :=
  match s with
  | EmptyString => Some acc
  | String c s' => d ← digit_of c; digits s' (10 * acc + d)
  end.

Definition number (s : string) : option Z :=
  if String.eqb s "" then None else digits s 0.

Fixpoint split_dot (s : string) : string * option string :=
  match s with
  | EmptyString => (EmptyString, None)
  | String c s' =>
      if Ascii.eqb c "." then (EmptyString, Some s')
      else (String c (split_dot s').1, (split_dot s').2)
  end.

Definition float_of_Z (n : Z) : float := PrimFloat.of_uint63 (Uint63.of_Z n).

Definition unsigned_literal (s : string) : option float :=
  if (15 <? String.length s)%nat then None
  else
    match split_dot s with
    | (ip, None) => float_of_Z <$> number ip
    | (ip, Some fp) =>
        n ← number (ip +:+ fp);
        Some (float_of_Z n / float_of_Z (10 ^ Z.of_nat (String.length fp)))%float
    end.

(** A conversion of short plain decimal literals, to instantiate the
    interpreter's conversion in the examples: an optional sign, then at
    most 15 characters of digits with an optional point.  On these it is
    the float [float] returns (numerator and power of ten are exact, the
    division rounds once).  It is not [float] on other text: it refuses
    blanks around the number, exponents, [inf], [nan], underscores and
    longer literals, all of which [float] accepts. *)
Definition decimal_literal (s : string) : option float :=
  match s with
  | String "-" s' => PrimFloat.opp <$> unsigned_literal s'
  | String "+" s' => unsigned_literal s'
  | _ => unsigned_literal s
  end.

Definition is_leap (y : Z) : bool :=
  ((y mod 4 =? 0) && negb (y mod 100 =? 0)) || (y mod 400 =? 0).

Definition days_in_month (y m : Z) : Z :=
  if m =? 2 then (if is_leap y then 29 else 28)
  else if (m =? 4) || (m =? 6) || (m =? 9) || (m =? 11) then 30
  else 31.

Definition field (s : string) (start len : nat) : option Z :=
  number (substring start len s).

Definition parse_datetime (s : string) : option datetime :=
  if negb (Nat.eqb (String.length s) 16) then None
  else if negb (String.eqb (substring 4 1 s) "-" && String.eqb (substring 7 1 s) "-"
                && String.eqb (substring 10 1 s) " " && String.eqb (substring 13 1 s) ":")
  then None
  else
    y ← field s 0 4; m ← field s 5 2; d ← field s 8 2;
    h ← field s 11 2; mi ← field s 14 2;
    if (1 <=? y) && (1 <=? m) && (m <=? 12) && (1 <=? d) && (d <=? days_in_month y m)
       && (h <=? 23) && (mi <=? 59)
    then Some (DateTime (Date y m d) h mi)
    else None.

(** Modelled from the spec: [helpers.cd_to_datetime], which is not among
    the sources: "[time] parsed from the source's date-time text format
    ([YYYY-MM-DD HH:MM], no seconds) into a calendar date-time value". *)
Definition cd_to_datetime (v : pyval) : result datetime :=
  match v with
  | VStr s =>
      match parse_datetime s with
      | Some t => Ok t
      | None => Raise ValueError
      end
  | _ => Raise TypeError
  end.

Definition digit_char (d : Z) : ascii := ascii_of_N (Z.to_N (48 + d mod 10)).

Definition pad2 (n : Z) : string :=
  String (digit_char (n / 10)) (String (digit_char n) EmptyString).

Definition pad4 (n : Z) : string := pad2 (n / 100) +:+ pad2 n.

(** Modelled from the spec: [helpers.datetime_to_str], which is not among
    the sources: "Date-time serialization format: [YYYY-MM-DD HH:MM]
    (minute precision, no timezone suffix)". *)
Definition datetime_to_str (t : datetime) : string :=
  pad4 (year (dt_date t)) +:+ "-" +:+ pad2 (month (dt_date t)) +:+ "-"
    +:+ pad2 (day (dt_date t)) +:+ " " +:+ pad2 (hour t) +:+ ":" +:+ pad2 (minute t).

(** The records of the examples: 433 Eros, and an approach at a given
    time and distance. *)
Definition eros (hazardous0 : pyval) : NearEarthObject :=
  {| name := VStr "Eros"; designation := VStr "433"; diameter := VFloat 16.84;
     hazardous := hazardous0; approaches := [] |}.

Definition approach_at (t : datetime) (dist : float) (neo0 : option NearEarthObject)
  : CloseApproach :=
  {| _designation := VStr "433"; time := t; distance := VFloat dist;
     velocity := VFloat 5.5; neo := neo0 |}.

Definition noon : datetime := DateTime (Date 2020 1 1) 12 0.

(** A hazardous object without a name and of unknown diameter. *)
Definition unnamed : NearEarthObject :=
  {| name := VNone; designation := VStr "2020 FK"; diameter := VFloat nan;
     hazardous := VBool true; approaches := [] |}.

(** Keyword arguments for the two constructors. *)
Definition neo_info (name0 : string) : gmap string pyval :=
  {[ "designation" := VStr "433"; "name" := VStr name0;
     "diameter" := VStr "16.84"; "hazardous" := VBool false ]}.

Definition approach_info (velocity0 : pyval) : gmap string pyval :=
  {[ "designation" := VStr "433"; "time" := VStr "2020-01-01 12:00";
     "distance" := VFloat 0.5; "velocity" := velocity0 ]}.

(** A row of the NEO table and a close-approach document. *)
Definition neo_row (name0 diameter0 pha : string) : gmap string pyval :=
  {[ "pdes" := VStr "433"; "name" := VStr name0; "diameter" := VStr diameter0;
     "pha" := VStr pha; "orbit_id" := VStr "JPL 658" ]}.

Definition cad_fields : list string := [ "des"; "orbit_id"; "cd"; "dist"; "v_rel" ]%string.

Definition cad_value (cd dist v_rel : string) : list pyval :=
  [ VStr "433"; VStr "658"; VStr cd; VStr dist; VStr v_rel ].

Definition cad_doc : cad_json :=
  CadJson (Some cad_fields)
          (Some [ cad_value "2020-01-01 12:00" "0.5" "5.5";
                  cad_value "2021-03-04 05:06" "0.25" "7.5" ]).

(** The approaches that document holds. *)
Definition cad_approaches : list CloseApproach :=
  [ approach_at noon 0.5 None;
    {| _designation := VStr "433"; time := DateTime (Date 2021 3 4) 5 6;
       distance := VFloat 0.25; velocity := VFloat 7.5; neo := None |} ].

(** The objects of two rows of the NEO table, the second without a name
    and a diameter. *)
Definition neo_rows : list (gmap string pyval) :=
  [ neo_row "Eros" "16.84" "N"; neo_row " " "" "Y" ].

Definition blank_neo : NearEarthObject :=
  {| name := VNone; designation := VStr "433"; diameter := VFloat nan;
     hazardous := VBool true; approaches := [] |}.

End Sample.

(** * Properties *)

(** ** Record construction *)

Section ConstructionFacts.
Variable float_of_string : string → option float.
Variable cd_to_datetime : pyval → result datetime.

(** On text the conversion of the diameter never raises: it is the float
    the text denotes, or not-a-number when the text denotes none. *)
Lemma isDigitorNone_text (s : string) :
  isDigitorNone float_of_string (VStr s)
  = Ok (VFloat (default nan (float_of_string s))).
Proof.
  unfold isDigitorNone, py_float. by destruct (float_of_string s).
Qed.

(** What [isDigitorNone] returns is a float. *)
Lemma isDigitorNone_float (v d : pyval) :
  isDigitorNone float_of_string v = Ok d → ∃ f, d = VFloat f.
Proof.
  unfold isDigitorNone. destruct (py_float _ v) as [f|[]]; intros; simplify_eq; eauto.
Qed.

(** [float(None)] raises [TypeError], and the handler of [isDigitorNone]
    lets that exception through. *)
Lemma isDigitorNone_None :
  isDigitorNone float_of_string VNone = Raise TypeError.
Proof. reflexivity. Qed.

(** The constructor fails exactly when the diameter conversion does. *)
Lemma NearEarthObject_init_raises (info : gmap string pyval) (e : exn) :
  NearEarthObject_init float_of_string info = Raise e
  ↔ isDigitorNone float_of_string (dict_get info "diameter") = Raise e.
Proof.
  unfold NearEarthObject_init.
  destruct (isDigitorNone _ _) as [d|e']; simpl; split; intros; by simplify_eq.
Qed.

(** C1, at the input where the code departs from it: a mapping that
    supplies no diameter.  [info.get('diameter')] is [None], [float(None)]
    raises [TypeError], the handler catches [ValueError] only, and the
    construction raises instead of producing a not-a-number diameter. *)
Theorem NearEarthObject_init_missing_diameter :
  NearEarthObject_init float_of_string
    {[ "designation" := VStr "433"; "name" := VStr "Eros";
       "hazardous" := VBool false ]}
  = Raise TypeError.
Proof. reflexivity. Qed.

(** The same failure seen from [load_neos]: a row that is shorter than
    the header has [None] under [diameter] ([DictReader] fills it in),
    and every row from that one on is lost. *)
Lemma load_neos_short_row (rows : list (gmap string pyval)) :
  load_neos float_of_string
    ({[ "name" := VStr "Eros"; "pdes" := VStr "433";
        "diameter" := VNone; "pha" := VStr "N" ]} :: rows)
  = None.
Proof. reflexivity. Qed.


(** The distance, in contrast, is a float in every constructed approach,
    and a distance that does not convert makes the construction raise. *)
Lemma CloseApproach_init_distance (info : gmap string pyval) neo0 (t : datetime) :
  cd_to_datetime (dict_get info "time") = Ok t →
  match py_float float_of_string (dict_get info "distance") with
  | Ok f => ∃ a, CloseApproach_init float_of_string cd_to_datetime info neo0 = Ok a
                 ∧ distance a = VFloat f
  | Raise e => CloseApproach_init float_of_string cd_to_datetime info neo0 = Raise e
  end.
Proof.
  intros Ht. unfold CloseApproach_init. rewrite Ht. simpl.
  destruct (dict_get info "distance") as [|b|f|s|?|?] eqn:Hd; simpl; eauto.
  destruct (float_of_string s); simpl; eauto.
Qed.

(** C4, as the code has it: an empty name and the name of one space
    become [None]; any other text, longer blank text included, is kept.
    The construction succeeds whenever the diameter conversion does. *)
Theorem NearEarthObject_init_name (info : gmap string pyval) (d : pyval) :
  isDigitorNone float_of_string (dict_get info "diameter") = Ok d →
  ∃ self, NearEarthObject_init float_of_string info = Ok self
    ∧ (dict_get info "name" = VStr "" ∨ dict_get info "name" = VStr " "
       → name self = VNone)
    ∧ (∀ s, dict_get info "name" = VStr s → s ≠ "" → s ≠ " "
       → name self = VStr s).
Proof.
  intros Hd. unfold NearEarthObject_init. rewrite Hd. simpl.
  eexists; split; [reflexivity|]. simpl. split.
  - intros [-> | ->]; reflexivity.
  - intros s -> Hs1 Hs2. simpl.
    destruct (String.eqb_spec s " "); [done|].
    destruct (String.eqb_spec s ""); [done|]. reflexivity.
Qed.

End ConstructionFacts.

(** ** Filters *)

Lemma create_filters_unfold
    (date start_date end_date distance_min distance_max
     velocity_min velocity_max diameter_min diameter_max hazardous : pyval) :
  create_filters date start_date end_date distance_min distance_max
                 velocity_min velocity_max diameter_min diameter_max hazardous
  = filter_for DateFilter op_eq date ++ filter_for DateFilter op_ge start_date
    ++ filter_for DateFilter op_le end_date
    ++ filter_for DistFilter op_ge distance_min ++ filter_for DistFilter op_le distance_max
    ++ filter_for VeloFilter op_ge velocity_min ++ filter_for VeloFilter op_le velocity_max
    ++ filter_for DiamFilter op_ge diameter_min ++ filter_for DiamFilter op_le diameter_max
    ++ filter_for HazFilter op_eq hazardous.
Proof.
  unfold create_filters, filter_for, filter_mappings. cbn [foldl].
  repeat match goal with
         | |- context [dict_get ?m ?k] =>
             let v := eval vm_compute in (dict_get m k) in
             change (dict_get m k) with v
         end.
  destruct (is_not_None date), (is_not_None start_date), (is_not_None end_date),
    (is_not_None distance_min), (is_not_None distance_max),
    (is_not_None velocity_min), (is_not_None velocity_max),
    (is_not_None diameter_min), (is_not_None diameter_max),
    (is_not_None hazardous); reflexivity.
Qed.

(** C7: a filter of the base class raises [UnsupportedCriterionError] when
    it is called, whatever its operator, value and the close approach. *)
Theorem base_filter_call_raises (o : operator) (v : pyval) (approach : CloseApproach) :
  call {| cls := AttributeFilter; op := o; value := v |} approach
  = Raise UnsupportedCriterionError.
Proof. reflexivity. Qed.

Lemma date_eqb_eq (a b : date) : date_eqb a b = true ↔ a = b.
Proof.
  destruct a, b. unfold date_eqb. simpl.
  rewrite !andb_true_iff, !Z.eqb_eq. split; [intros [[-> ->] ->]; reflexivity|].
  intros [= -> -> ->]. done.
Qed.

Lemma date_leb_le (a b : date) : date_leb a b = true ↔ on_or_before a b.
Proof.
  unfold date_leb, on_or_before.
  destruct (Z.eqb_spec (year a) (year b)) as [Hy|Hy];
    [destruct (Z.eqb_spec (month a) (month b)) as [Hm|Hm]|];
    rewrite ?Z.leb_le, ?Z.ltb_lt; lia.
Qed.

(** The bounds are inclusive: a day is on or before itself. *)
Lemma on_or_before_refl (a : date) : on_or_before a a.
Proof. unfold on_or_before. lia. Qed.

(** C5: [create_filters] tests each of its ten arguments with
    [is not None] and nothing else: whatever the ten values are, it returns,
    in the order of the parameters, one filter for each argument that is
    not [None] (a false or zero value included), with the class and
    operator of that parameter and the argument as reference value, and no
    filter for an argument that is [None].  So with every criterion [None]
    there is no filter; with [hazardous=False] (or any other value that is
    not [None]) alone there is exactly one, and on an approach whose NEO
    has the hazardous flag [b] the filter for [False] returns [not b]: it
    rejects the hazardous and accepts the others. *)
Theorem create_filters_hazardous
    (date start_date end_date distance_min distance_max
     velocity_min velocity_max diameter_min diameter_max flag : pyval)
    (approach : CloseApproach) (n : NearEarthObject) (b : bool) :
  neo approach = Some n →
  hazardous n = VBool b →
  create_filters date start_date end_date distance_min distance_max
                 velocity_min velocity_max diameter_min diameter_max flag
  = filter_for DateFilter op_eq date ++ filter_for DateFilter op_ge start_date
    ++ filter_for DateFilter op_le end_date
    ++ filter_for DistFilter op_ge distance_min ++ filter_for DistFilter op_le distance_max
    ++ filter_for VeloFilter op_ge velocity_min ++ filter_for VeloFilter op_le velocity_max
    ++ filter_for DiamFilter op_ge diameter_min ++ filter_for DiamFilter op_le diameter_max
    ++ filter_for HazFilter op_eq flag
  ∧ (∀ c o, filter_for c o VNone = [])
  ∧ (∀ c o v, v ≠ VNone → filter_for c o v = [ {| cls := c; op := o; value := v |} ])
  ∧ create_filters VNone VNone VNone VNone VNone VNone VNone VNone VNone VNone = []
  ∧ (∀ h, h ≠ VNone →
       create_filters VNone VNone VNone VNone VNone VNone VNone VNone VNone h
       = [ {| cls := HazFilter; op := op_eq; value := h |} ])
  ∧ ∃ f, create_filters VNone VNone VNone VNone VNone VNone VNone VNone VNone (VBool false)
         = [f]
         ∧ call f approach = Ok (negb b).
Proof.
  intros Hneo Hhaz. split; [apply create_filters_unfold|].
  split; [reflexivity|]. split; [by intros c o []|].
  split; [reflexivity|]. split.
  - intros h Hh. rewrite create_filters_unfold. by destruct h.
  - eexists. split; [reflexivity|].
    unfold call, get, neo_attr, linked_neo. rewrite Hneo. simpl. rewrite Hhaz.
    by destruct b.
Qed.

Lemma create_filters_hazardous_witness :
  let approach := Sample.approach_at Sample.noon 0.5 (Some (Sample.eros (VBool true))) in
  neo approach = Some (Sample.eros (VBool true))
  ∧ hazardous (Sample.eros (VBool true)) = VBool true
  ∧ create_filters VNone VNone VNone (VFloat 0) VNone VNone VNone VNone VNone (VBool false)
    = [ {| cls := DistFilter; op := op_ge; value := VFloat 0 |};
        {| cls := HazFilter; op := op_eq; value := VBool false |} ]
  ∧ ∃ f, create_filters VNone VNone VNone VNone VNone VNone VNone VNone VNone (VBool false)
         = [f]
         ∧ call f approach = Ok false.
Proof.
  split; [reflexivity|]. split; [reflexivity|]. split.
  - exact (proj1 (create_filters_hazardous
                    VNone VNone VNone (VFloat 0) VNone VNone VNone VNone VNone (VBool false)
                    (Sample.approach_at Sample.noon 0.5 (Some (Sample.eros (VBool true))))
                    (Sample.eros (VBool true)) true eq_refl eq_refl)).
  - exact (proj2 (proj2 (proj2 (proj2 (proj2 (create_filters_hazardous
                    VNone VNone VNone VNone VNone VNone VNone VNone VNone VNone
                    (Sample.approach_at Sample.noon 0.5 (Some (Sample.eros (VBool true))))
                    (Sample.eros (VBool true)) true eq_refl eq_refl)))))).
Defined.

(** C8: the date filters compare the calendar day of the approach.  The
    filter built for [date=D] returns true exactly when the approach falls
    on day [D], at whatever time; the ones for [start_date=D] and
    [end_date=D] exactly when the day of the approach is [D] or later,
    respectively [D] or earlier.  A day-[D] filter takes 2020-01-01 13:45
    for [D] = 2020-01-01 and refuses 2020-01-02 00:01. *)
Theorem date_filters_compare_days (approach : CloseApproach) (D : date) :
  let f_on := {| cls := DateFilter; op := op_eq; value := VDate D |} in
  let f_from := {| cls := DateFilter; op := op_ge; value := VDate D |} in
  let f_until := {| cls := DateFilter; op := op_le; value := VDate D |} in
  let the_day := date_of (time approach) in
  create_filters (VDate D) VNone VNone VNone VNone VNone VNone VNone VNone VNone = [f_on]
  ∧ create_filters VNone (VDate D) VNone VNone VNone VNone VNone VNone VNone VNone = [f_from]
  ∧ create_filters VNone VNone (VDate D) VNone VNone VNone VNone VNone VNone VNone = [f_until]
  ∧ (∃ r, call f_on approach = Ok r ∧ (r = true ↔ the_day = D))
  ∧ (∃ r, call f_from approach = Ok r ∧ (r = true ↔ on_or_before D the_day))
  ∧ (∃ r, call f_until approach = Ok r ∧ (r = true ↔ on_or_before the_day D))
  ∧ on_or_before D D
  ∧ call {| cls := DateFilter; op := op_eq; value := VDate (Date 2020 1 1) |}
         (Sample.approach_at (DateTime (Date 2020 1 1) 13 45) 0.5 None) = Ok true
  ∧ call {| cls := DateFilter; op := op_eq; value := VDate (Date 2020 1 1) |}
         (Sample.approach_at (DateTime (Date 2020 1 2) 0 1) 0.5 None) = Ok false.
Proof.
  simpl. repeat split; try reflexivity.
  - eexists. split; [reflexivity|]. apply date_eqb_eq.
  - eexists. split; [reflexivity|]. apply date_leb_le.
  - eexists. split; [reflexivity|]. apply date_leb_le.
  - apply on_or_before_refl.
Qed.

(** ** The result limiter *)

Section LimitFacts.
Context {A : Type}.
Implicit Types (xs : list A) (lim : option Z) (n c : Z) (fuel k : nat).

Lemma consume_succ_limit fuel (g : limit_gen (list A)) :
  consume (Datatypes.S fuel) g
  = r ← limit_next g;
    match r with
    | (None, g') => Ok ([], g')
    | (Some x, g') => r' ← consume fuel g'; Ok (x :: r'.1, r'.2)
    end.
Proof. reflexivity. Qed.

Ltac limit_step :=
  rewrite consume_succ_limit;
  unfold limit, limit_next, limit_for, limit_yield_from; simpl.

(** Inside [yield from] the generator hands the source through. *)
Lemma consume_yield_from xs lim fuel :
  (length xs < fuel)%nat →
  consume fuel (LimitGen lim LimitYieldFrom xs) = Ok (xs, LimitGen lim LimitDone []).
Proof.
  revert fuel. induction xs as [|x xs IH]; intros [|fuel] Hlen; simpl in Hlen; try lia.
  - reflexivity.
  - limit_step. rewrite IH by lia. reflexivity.
Qed.

(** Suspended at [yield item] with [count = c]: the loop hands out the
    next [n - (c + 1)] items, and the pull that finds the cap reached
    takes one more item from the source. *)
Lemma consume_loop xs lim n c fuel :
  (length xs < fuel)%nat →
  consume fuel (LimitGen lim (LimitLoop n c) xs)
  = Ok (take (Z.to_nat (n - (c + 1))) xs,
        LimitGen lim LimitDone (drop (Datatypes.S (Z.to_nat (n - (c + 1)))) xs)).
Proof.
  revert c fuel. induction xs as [|x xs IH]; intros c [|fuel] Hlen; simpl in Hlen; try lia.
  - limit_step. by rewrite take_nil.
  - limit_step.
    destruct (Z.geb_spec (c + 1) n) as [Hge|Hlt]; simpl.
    + replace (Z.to_nat (n - (c + 1))) with 0%nat by lia. reflexivity.
    + rewrite IH by lia.
      replace (Z.to_nat (n - (c + 1))) with (Datatypes.S (Z.to_nat (n - (c + 1 + 1)))) by lia.
      reflexivity.
Qed.

(** While the cap is not reached the generator pulls what it yields and
    nothing more. *)
Lemma consume_loop_prefix xs lim n c k :
  (k ≤ Z.to_nat (n - (c + 1)))%nat → (k ≤ length xs)%nat →
  ∃ g, consume k (LimitGen lim (LimitLoop n c) xs) = Ok (take k xs, g)
       ∧ iterator g = drop k xs.
Proof.
  revert c k. induction xs as [|x xs IH]; intros c [|k] Hk Hlen; simpl in Hlen; try lia.
  - eexists. split; reflexivity.
  - eexists. split; reflexivity.
  - limit_step.
    destruct (Z.geb_spec (c + 1) n) as [Hge|Hlt]; [lia|]. simpl.
    destruct (IH (c + 1) k) as (g & Hg & Hit); [lia..|].
    exists g. rewrite Hg. done.
Qed.

Lemma limit_start_for xs n fuel :
  n ≠ 0 →
  consume (Datatypes.S fuel) (limit xs (Some n))
  = consume (Datatypes.S fuel) (LimitGen (Some n) (LimitLoop n (-1)) xs).
Proof.
  intros Hn. rewrite !consume_succ_limit. unfold limit, limit_next. simpl.
  destruct (Z.eqb_spec n 0); [done|]. reflexivity.
Qed.

Lemma limit_start_unlimited xs lim fuel :
  lim = None ∨ lim = Some 0 →
  consume (Datatypes.S fuel) (limit xs lim)
  = consume (Datatypes.S fuel) (LimitGen lim LimitYieldFrom xs).
Proof.
  intros [-> | ->]; reflexivity.
Qed.

(** C2, as the code has it.  For a positive [n]: a consumer that takes
    [k] items, [k] up to the smaller of [n] and the length, receives the
    first [k] elements and leaves the source advanced by exactly [k]; a
    consumer that runs the generator until it stops receives the first
    [min n length] elements, and the source is then advanced by one
    element more than [n] when it has that many.  With [None] or zero the
    generator hands out the whole source. *)
Theorem limit_positive xs n :
  0 < n →
  (∀ k, (k ≤ Z.to_nat n)%nat → (k ≤ length xs)%nat →
     ∃ g, consume k (limit xs (Some n)) = Ok (take k xs, g) ∧ iterator g = drop k xs)
  ∧ (∀ fuel, (length xs < fuel)%nat →
       consume fuel (limit xs (Some n))
       = Ok (take (Z.to_nat n `min` length xs) xs,
             LimitGen (Some n) LimitDone (drop (Datatypes.S (Z.to_nat n)) xs)))
  ∧ (∀ fuel lim, (length xs < fuel)%nat → lim = None ∨ lim = Some 0 →
       consume fuel (limit xs lim) = Ok (xs, LimitGen lim LimitDone [])).
Proof.
  intros Hn. split; [|split].
  - intros [|k] Hk Hlen.
    + eexists. split; reflexivity.
    + rewrite limit_start_for by lia. apply consume_loop_prefix; lia.
  - intros [|fuel] Hlen; [lia|].
    rewrite limit_start_for by lia. rewrite consume_loop by lia.
    replace (n - (-1 + 1)) with n by lia.
    destruct (Nat.le_ge_cases (Z.to_nat n) (length xs)) as [Hle|Hle].
    + by rewrite Nat.min_l.
    + rewrite Nat.min_r by done. rewrite (take_ge xs (Z.to_nat n)) by done.
      by rewrite firstn_all.
  - intros [|fuel] lim Hlen Hn0; [lia|].
    rewrite limit_start_unlimited by done. by apply consume_yield_from.
Qed.

(** C10: with a negative [n] the first request for an item already ends
    the generator: nothing is yielded, and the source has lost its first
    element if it had one. *)
Theorem limit_negative xs n fuel :
  n < 0 → (0 < fuel)%nat →
  consume fuel (limit xs (Some n)) = Ok ([], LimitGen (Some n) LimitDone (tail xs)).
Proof.
  intros Hn Hfuel. destruct fuel as [|fuel]; [lia|].
  limit_step.
  destruct (Z.eqb_spec n 0); [lia|].
  destruct xs as [|x xs]; simpl; [reflexivity|].
  destruct (Z.geb_spec 0 n); [reflexivity|lia].
Qed.

End LimitFacts.

(** C2, against the claim as it is worded: over five elements with the cap
    at two, a consumer that runs the generator to its end receives the
    first two elements, and the source has then given up three: what is
    left of it is not what follows the two yielded elements. *)
Lemma limit_pulls_past_the_cap :
  consume 6 (limit [10; 20; 30; 40; 50] (Some 2))
  = Ok ([10; 20], LimitGen (Some 2) LimitDone [40; 50])
  ∧ [40; 50] ≠ drop (length [10; 20]) [10; 20; 30; 40; 50].
Proof. split; [reflexivity | discriminate]. Qed.

Lemma limit_positive_witness :
  0 < 3
  ∧ consume 5 (limit [1; 2; 3; 4] (Some 3))
    = Ok ([1; 2; 3], LimitGen (Some 3) LimitDone []).
Proof.
  split; [lia|].
  apply (proj1 (proj2 (limit_positive [1; 2; 3; 4] 3 ltac:(lia))) 5%nat).
  simpl. lia.
Defined.

Lemma limit_negative_witness :
  -1 < 0 ∧ (0 < 1)%nat
  ∧ consume 1 (limit [10; 20; 30] (Some (-1)))
    = Ok ([], LimitGen (Some (-1)) LimitDone [20; 30]).
Proof.
  split; [lia|]. split; [lia|].
  apply (limit_negative [10; 20; 30] (-1) 1); lia.
Defined.

(** ** The query engine *)

Lemma accepts_all (filters : list filter) (approach : CloseApproach) :
  accepts filters approach = true ↔ ∀ f, f ∈ filters → call f approach = Ok true.
Proof.
  unfold accepts. rewrite forallb_forall. split.
  - intros H f Hf. apply list_elem_of_In, H in Hf.
    by destruct (call f approach) as [[]|].
  - intros H f Hf. apply list_elem_of_In, H in Hf. by rewrite Hf.
Qed.

Lemma matches_accepts (filters : list filter) (approach : CloseApproach) (b : bool) :
  matches filters approach = Ok b → b = accepts filters approach.
Proof.
  revert b. induction filters as [|f filters IH]; intros b; simpl.
  - by intros [= <-].
  - destruct (call f approach) as [[]|]; simpl; [apply IH | by intros [= <-] | done].
Qed.

Lemma consume_succ {S A} `{!Iterator S A} (fuel : nat) (s : S) :
  consume (Datatypes.S fuel) s
  = r ← next s;
    match r with
    | (None, s') => Ok ([], s')
    | (Some x, s') => r' ← consume fuel s'; Ok (x :: r'.1, r'.2)
    end.
Proof. reflexivity. Qed.

Lemma query_next_unfold (filters : list filter) (approaches : list CloseApproach) :
  next (QueryGen filters approaches)
  = r ← query_scan filters approaches; Ok (r.1, QueryGen filters r.2).
Proof. reflexivity. Qed.

Lemma query_next_rejected (filters : list filter) approach rest :
  matches filters approach = Ok false →
  next (QueryGen filters (approach :: rest)) = next (QueryGen filters rest).
Proof.
  intros H. rewrite !query_next_unfold. simpl. by rewrite H.
Qed.

Lemma consume_query (filters : list filter) (approaches : list CloseApproach) (fuel : nat) :
  (∀ a, a ∈ approaches → ∃ b, matches filters a = Ok b) →
  (length approaches < fuel)%nat →
  consume fuel (QueryGen filters approaches)
  = Ok (List.filter (accepts filters) approaches, QueryGen filters []).
Proof.
  revert fuel. induction approaches as [|a rest IH]; intros [|fuel] Hok Hlen;
    simpl in Hlen; try lia.
  - reflexivity.
  - destruct (Hok a) as [b Hb]; [left|].
    assert (Hrest : ∀ a', a' ∈ rest → ∃ b', matches filters a' = Ok b')
      by (intros; apply Hok; by right).
    cbn [List.filter]. rewrite <- (matches_accepts _ _ _ Hb). destruct b.
    + rewrite consume_succ, query_next_unfold. simpl. rewrite Hb. simpl.
      rewrite IH by (done || lia). reflexivity.
    + rewrite consume_succ, query_next_rejected by done. rewrite <- consume_succ.
      apply (IH (S fuel)); [done | lia].
Qed.

Lemma query_next_lazy (filters : list filter) (approaches : list CloseApproach) a g :
  next (QueryGen filters approaches) = Ok (Some a, g) →
  ∃ skipped, approaches = skipped ++ a :: query_approaches g
             ∧ Forall (λ s, accepts filters s = false) skipped
             ∧ accepts filters a = true.
Proof.
  revert g. induction approaches as [|x rest IH]; intros g.
  - rewrite query_next_unfold. simpl. discriminate.
  - destruct (matches filters x) as [[]|e] eqn:Hx.
    + rewrite query_next_unfold. simpl. rewrite Hx. simpl. intros [= -> <-].
      exists []. simpl. split_and!; [done | constructor | by rewrite <- (matches_accepts _ _ _ Hx)].
    + rewrite query_next_rejected by done. intros H.
      destruct (IH g H) as (skipped & -> & Hs & Ha).
      exists (x :: skipped). split_and!; [done | | done].
      constructor; [by rewrite <- (matches_accepts _ _ _ Hx) | done].
    + rewrite query_next_unfold. simpl. rewrite Hx. simpl. discriminate.
Qed.

Lemma filter_accepts_nil (approaches : list CloseApproach) :
  List.filter (accepts []) approaches = approaches.
Proof.
  induction approaches as [|a rest IH]; [done|]. simpl. by rewrite IH.
Qed.

(** C6: when no filter raises on a record of the collection, a consumer
    that runs the query to its end receives exactly the records on which
    every filter returns true, in load order (all of them when there is no
    filter); and each [next] stops at the first match, leaving the records
    behind it unvisited. *)
Theorem query_yields_matches (approaches : list CloseApproach) (filters : list filter) :
  (∀ a, a ∈ approaches → ∃ b, matches filters a = Ok b) →
  (∀ a, accepts filters a = true ↔ ∀ f, f ∈ filters → call f a = Ok true)
  ∧ (∀ fuel, (length approaches < fuel)%nat →
       consume fuel (query approaches filters)
       = Ok (List.filter (accepts filters) approaches, QueryGen filters []))
  ∧ (∀ fuel, (length approaches < fuel)%nat →
       consume fuel (query approaches []) = Ok (approaches, QueryGen [] []))
  ∧ (∀ a g, next (query approaches filters) = Ok (Some a, g) →
       ∃ skipped, approaches = skipped ++ a :: query_approaches g
                  ∧ Forall (λ s, accepts filters s = false) skipped
                  ∧ accepts filters a = true).
Proof.
  intros Hok. split_and!.
  - intros a. apply accepts_all.
  - intros fuel Hlen. by apply consume_query.
  - intros fuel Hlen. unfold query. rewrite consume_query; [|by eauto|done].
    by rewrite filter_accepts_nil.
  - intros a g. apply query_next_lazy.
Qed.

Lemma query_yields_matches_witness :
  let a3 := Sample.approach_at Sample.noon 0.3 None in
  let a5 := Sample.approach_at Sample.noon 0.5 None in
  let a7 := Sample.approach_at Sample.noon 0.7 None in
  let filters :=
    create_filters VNone VNone VNone VNone (VFloat 0.5) VNone VNone VNone VNone VNone in
  (∀ a, a ∈ [a3; a5; a7] → ∃ b, matches filters a = Ok b)
  ∧ consume 4 (query [a3; a5; a7] filters) = Ok ([a3; a5], QueryGen filters []).
Proof.
  assert (H : ∀ a, a ∈ [Sample.approach_at Sample.noon 0.3 None;
                        Sample.approach_at Sample.noon 0.5 None;
                        Sample.approach_at Sample.noon 0.7 None] →
              ∃ b, matches (create_filters VNone VNone VNone VNone (VFloat 0.5)
                                           VNone VNone VNone VNone VNone) a = Ok b).
  { intros a Ha. repeat (apply elem_of_cons in Ha as [-> | Ha]);
      [eexists; reflexivity .. | by apply elem_of_nil in Ha]. }
  split; [exact H|].
  apply (proj1 (proj2 (query_yields_matches _ _ H)) 4%nat). simpl. lia.
Defined.

(** The limiter on top of the query: with the cap at one, the request that
    ends the generator makes the query look for a second match, so the
    approach at 0.5 is visited although it is never handed out. *)
Example limit_over_query_scans_ahead :
  let a3 := Sample.approach_at Sample.noon 0.3 None in
  let a5 := Sample.approach_at Sample.noon 0.5 None in
  let a7 := Sample.approach_at Sample.noon 0.7 None in
  let filters :=
    create_filters VNone VNone VNone VNone (VFloat 0.5) VNone VNone VNone VNone VNone in
  consume 1 (limit (query [a3; a5; a7] filters) (Some 1))
  = Ok ([a3], LimitGen (Some 1) (LimitLoop 1 0) (QueryGen filters [a5; a7]))
  ∧ consume 2 (limit (query [a3; a5; a7] filters) (Some 1))
    = Ok ([a3], LimitGen (Some 1) LimitDone (QueryGen filters [a7])).
Proof. split; reflexivity. Qed.

(** ** The row-oriented export *)

Section WriteFacts.
Variable datetime_to_str : datetime → string.


End WriteFacts.

(** ** The theorems at concrete records *)


(** C4, against the claim as it is worded: the empty name becomes [None],
    not the text [no name], and a name of two spaces is kept as it is. *)
Lemma NearEarthObject_init_name_is_None :
  name <$> NearEarthObject_init Sample.decimal_literal (Sample.neo_info "") = Ok VNone
  ∧ name <$> NearEarthObject_init Sample.decimal_literal (Sample.neo_info "")
    ≠ Ok (VStr "no name")
  ∧ name <$> NearEarthObject_init Sample.decimal_literal (Sample.neo_info "  ")
    = Ok (VStr "  ").
Proof. split_and!; [reflexivity | discriminate | reflexivity]. Qed.

Lemma NearEarthObject_init_name_witness :
  isDigitorNone Sample.decimal_literal (dict_get (Sample.neo_info " ") "diameter")
  = Ok (VFloat 16.84)
  ∧ ∃ self, NearEarthObject_init Sample.decimal_literal (Sample.neo_info " ") = Ok self
      ∧ (dict_get (Sample.neo_info " ") "name" = VStr ""
         ∨ dict_get (Sample.neo_info " ") "name" = VStr " "
         → name self = VNone)
      ∧ (∀ s, dict_get (Sample.neo_info " ") "name" = VStr s → s ≠ "" → s ≠ " "
         → name self = VStr s).
Proof.
  split; [reflexivity|].
  apply (NearEarthObject_init_name Sample.decimal_literal (Sample.neo_info " ")
           (VFloat 16.84)).
  reflexivity.
Defined.


(** * Further properties *)

(** ** The limiter over any source *)

Section LimitAnySource.
Context {S A : Type} `{!Iterator S A}.
Implicit Types (s : S) (lim : option Z) (n c : Z) (fuel k : nat).

Lemma consume_limit_loop s lim n c fuel :
  consume (Datatypes.S fuel) (LimitGen lim (LimitLoop n c) s)
  = r ← next s;
    match r with
    | (Some item, s') =>
        if c + 1 >=? n then Ok ([], LimitGen lim LimitDone s')
        else r' ← consume fuel (LimitGen lim (LimitLoop n (c + 1)) s');
             Ok (item :: r'.1, r'.2)
    | (None, s') => Ok ([], LimitGen lim LimitDone s')
    end.
Proof.
  rewrite consume_succ. change (next (LimitGen lim (LimitLoop n c) s))
    with (limit_for lim n (c + 1) s).
  unfold limit_for. destruct (next s) as [[[item|] s']|e]; simpl; try done.
  by destruct (c + 1 >=? n).
Qed.

Lemma consume_limit_start s n fuel :
  n ≠ 0 →
  consume (Datatypes.S fuel) (limit s (Some n))
  = consume (Datatypes.S fuel) (LimitGen (Some n) (LimitLoop n (-1)) s).
Proof.
  intros Hn. rewrite !consume_succ.
  change (next (limit s (Some n)))
    with (if n =? 0 then limit_yield_from (Some n) s else limit_for (Some n) n 0 s).
  destruct (Z.eqb_spec n 0); [done|]. reflexivity.
Qed.

Lemma consume_limit_yield_from s lim fuel :
  consume (Datatypes.S fuel) (LimitGen lim LimitYieldFrom s)
  = r ← next s;
    match r with
    | (Some item, s') =>
        r' ← consume fuel (LimitGen lim LimitYieldFrom s'); Ok (item :: r'.1, r'.2)
    | (None, s') => Ok ([], LimitGen lim LimitDone s')
    end.
Proof.
  rewrite consume_succ. change (next (LimitGen lim LimitYieldFrom s))
    with (limit_yield_from lim s).
  unfold limit_yield_from. by destruct (next s) as [[[item|] s']|e].
Qed.

Lemma consume_limit_unlimited_start s lim fuel :
  lim = None ∨ lim = Some 0 →
  consume (Datatypes.S fuel) (limit s lim)
  = consume (Datatypes.S fuel) (LimitGen lim LimitYieldFrom s).
Proof. intros [-> | ->]; reflexivity. Qed.

Lemma limit_loop_transparent s lim n c k :
  (k ≤ Z.to_nat (n - (c + 1)))%nat →
  source_view <$> consume k (LimitGen lim (LimitLoop n c) s) = consume k s.
Proof.
  revert s c. induction k as [|k IH]; intros s c Hk; [reflexivity|].
  rewrite consume_limit_loop, (consume_succ k s).
  destruct (next s) as [[[item|] s']|e]; simpl; try done.
  destruct (Z.geb_spec (c + 1) n) as [Hge|Hlt]; [lia|].
  rewrite <- (IH s' (c + 1)) by lia.
  by destruct (consume k (LimitGen lim (LimitLoop n (c + 1)) s')) as [[out g]|e].
Qed.

Lemma limit_yield_from_transparent s lim k :
  source_view <$> consume k (LimitGen lim LimitYieldFrom s) = consume k s.
Proof.
  revert s. induction k as [|k IH]; intros s; [reflexivity|].
  rewrite consume_limit_yield_from, (consume_succ k s).
  destruct (next s) as [[[item|] s']|e]; simpl; try done.
  rewrite <- (IH s').
  by destruct (consume k (LimitGen lim LimitYieldFrom s')) as [[out g]|e].
Qed.

(** X1.  While a consumer asks for no more than [n] items, the limiter with a
    positive cap is transparent over any source: it hands out what the
    source hands out, raises what the source raises, and leaves the source
    where a direct consumer would have left it. *)
Theorem limit_transparent_up_to_cap s n k :
  0 < n → (k ≤ Z.to_nat n)%nat →
  source_view <$> consume k (limit s (Some n)) = consume k s.
Proof.
  intros Hn Hk. destruct k as [|k]; [reflexivity|].
  rewrite consume_limit_start by lia. apply limit_loop_transparent. lia.
Qed.

(** X2.  With [None] or zero the limiter is transparent over any source for any
    number of requests. *)
Theorem limit_unlimited_transparent s lim k :
  lim = None ∨ lim = Some 0 →
  source_view <$> consume k (limit s lim) = consume k s.
Proof.
  intros Hlim. destruct k as [|k]; [reflexivity|].
  rewrite consume_limit_unlimited_start by done. apply limit_yield_from_transparent.
Qed.

Lemma limit_loop_bound s lim n c fuel out g :
  consume fuel (LimitGen lim (LimitLoop n c) s) = Ok (out, g) →
  (length out ≤ Z.to_nat (n - (c + 1)))%nat.
Proof.
  revert s c out g. induction fuel as [|fuel IH]; intros s c out g.
  - intros [= <- <-]. simpl. lia.
  - rewrite consume_limit_loop.
    destruct (next s) as [[[item|] s']|e]; simpl; [| |done].
    + destruct (Z.geb_spec (c + 1) n) as [Hge|Hlt].
      * intros [= <- <-]. simpl. lia.
      * destruct (consume fuel (LimitGen lim (LimitLoop n (c + 1)) s'))
          as [[out' g']|e] eqn:Hc; simpl; [|done].
        intros [= <- <-]. apply IH in Hc. simpl. lia.
    + intros [= <- <-]. simpl. lia.
Qed.

(** X3.  Whatever the source is, however many items it could give and however
    long the consumer keeps asking, a limiter with a cap [n] other than
    zero hands out at most [n] items (none when [n] is negative). *)
Theorem limit_never_exceeds_cap s n fuel out g :
  n ≠ 0 →
  consume fuel (limit s (Some n)) = Ok (out, g) →
  (length out ≤ Z.to_nat n)%nat.
Proof.
  intros Hn. destruct fuel as [|fuel].
  - intros [= <- <-]. simpl. lia.
  - rewrite consume_limit_start by done. intros Hc.
    apply limit_loop_bound in Hc. lia.
Qed.

End LimitAnySource.

(** ** The loaders *)

Section LoaderFacts.
Variable float_of_string : string → option float.
Variable cd_to_datetime : pyval → result datetime.

Lemma load_neos_rows_app (rows : list (gmap string pyval)) (acc : list NearEarthObject) :
  load_neos_rows float_of_string rows acc
  = acc ++ load_neos_rows float_of_string rows [].
Proof.
  revert acc. induction rows as [|row rows IH]; intros acc; simpl.
  - by rewrite app_nil_r.
  - destruct (neo_of_row _ row) as [o|e]; [|by rewrite app_nil_r].
    rewrite (IH (acc ++ [o])), (IH [o]). by rewrite <- app_assoc.
Qed.

Lemma load_neos_rows_prefix (rows : list (gmap string pyval)) :
  ∃ good bad,
    rows = good ++ bad
    ∧ Forall2 (λ row o, neo_of_row float_of_string row = Ok o) good
              (load_neos_rows float_of_string rows [])
    ∧ match bad with
      | [] => True
      | row :: _ => ∃ e, neo_of_row float_of_string row = Raise e
      end.
Proof.
  induction rows as [|row rows (good & bad & Hrows & Hgood & Hbad)].
  - exists [], []. by split_and!.
  - simpl. destruct (neo_of_row _ row) as [o|e] eqn:Hrow.
    + exists (row :: good), bad. rewrite load_neos_rows_app. simpl.
      split_and!; [by rewrite Hrows | by constructor | done].
    + exists [], (row :: rows). split_and!; [done | constructor | by eauto].
Qed.

(** X4.  [load_neos] keeps the objects of the rows that precede the first row
    whose construction raises, in the order of the rows, and drops that
    row and every later one; when nothing is kept it returns [None], never
    an empty list. *)
Theorem load_neos_keeps_rows_before_first_failure (rows : list (gmap string pyval)) :
  ∃ good bad neos,
    rows = good ++ bad
    ∧ Forall2 (λ row o, neo_of_row float_of_string row = Ok o) good neos
    ∧ match bad with
      | [] => True
      | row :: _ => ∃ e, neo_of_row float_of_string row = Raise e
      end
    ∧ load_neos float_of_string rows
      = match neos with [] => None | _ => Some neos end.
Proof.
  destruct (load_neos_rows_prefix rows) as (good & bad & Hrows & Hgood & Hbad).
  exists good, bad, (load_neos_rows float_of_string rows []).
  split_and!; try done.
  unfold load_neos. by destruct (load_neos_rows float_of_string rows []).
Qed.

Lemma neo_of_row_on_text (row : gmap string pyval) (n p d h : string) :
  row !! "name" = Some (VStr n) →
  row !! "pdes" = Some (VStr p) →
  row !! "diameter" = Some (VStr d) →
  row !! "pha" = Some (VStr h) →
  neo_of_row float_of_string row
  = Ok {| name := (if String.eqb n "" || String.eqb n " " then VNone else VStr n);
          designation := VStr p;
          diameter := VFloat (default nan (float_of_string d));
          hazardous := VBool (String.eqb h "Y");
          approaches := [] |}.
Proof.
  intros Hn Hp Hd Hh. unfold neo_of_row, dict_getitem. rewrite Hn, Hp, Hd, Hh. simpl.
  unfold NearEarthObject_init.
  remember (py_or (VStr n) VNone) as nm eqn:Hnm.
  remember (String.eqb h "Y") as hz eqn:Hhz.
  repeat match goal with
         | |- context [dict_get ?m ?k] =>
             let v := eval vm_compute in (dict_get m k) in
             change (dict_get m k) with v
         end.
  rewrite isDigitorNone_text. simpl. subst nm. unfold py_or. simpl.
  destruct (String.eqb_spec n "") as [->|Hne]; [reflexivity|]. simpl.
  destruct (String.eqb_spec n " "); [reflexivity|].
  by destruct (String.eqb_spec n "").
Qed.

(** X5.  A row whose four columns hold text always gives an object: the name
    is [None] for an empty name or a single space, the diameter is the
    float the text denotes or not-a-number, and the hazardous flag is true
    exactly for the text [Y]. *)
Theorem neo_of_row_text (row : gmap string pyval) (n p d h : string) :
  row !! "name" = Some (VStr n) →
  row !! "pdes" = Some (VStr p) →
  row !! "diameter" = Some (VStr d) →
  row !! "pha" = Some (VStr h) →
  neo_of_row float_of_string row
  = Ok {| name := (if String.eqb n "" || String.eqb n " " then VNone else VStr n);
          designation := VStr p;
          diameter := VFloat (default nan (float_of_string d));
          hazardous := VBool (String.eqb h "Y");
          approaches := [] |}.
Proof. apply neo_of_row_on_text. Qed.

(** X6.  A table in which every row holds text in the four columns is loaded
    completely: one object per row, none lost, whatever the texts are. *)
Theorem load_neos_textual_complete (rows : list (gmap string pyval)) :
  rows ≠ [] →
  Forall textual_row rows →
  ∃ neos, load_neos float_of_string rows = Some neos
          ∧ Forall2 (λ row o, neo_of_row float_of_string row = Ok o) rows neos.
Proof.
  intros Hne Hrows.
  destruct (load_neos_rows_prefix rows) as (good & bad & Heq & Hgood & Hbad).
  destruct bad as [|row bad].
  - rewrite app_nil_r in Heq. subst good.
    exists (load_neos_rows float_of_string rows []). split; [|done].
    unfold load_neos. destruct Hgood; [done|]. reflexivity.
  - destruct Hbad as [e He]. exfalso.
    assert (Hrow : textual_row row).
    { rewrite Forall_forall in Hrows. apply Hrows. rewrite Heq.
      apply elem_of_app. right. left. }
    destruct Hrow as (n & p & d & h & Hn & Hp & Hd & Hh).
    by rewrite (neo_of_row_on_text row n p d h) in He.
Qed.

End LoaderFacts.

Ltac kwargs_lookup :=
  repeat match goal with
         | |- context [dict_get ?m ?k] =>
             let v := eval vm_compute in (dict_get m k) in
             change (dict_get m k) with v
         end.

Section ApproachLoaderFacts.
Variable float_of_string : string → option float.
Variable cd_to_datetime : pyval → result datetime.

(** What [load_approaches] hands to the constructor is already converted:
    an approach it builds has a float distance, a float velocity and no
    NEO. *)
Lemma approach_of_entry_numeric (entry : gmap string pyval) (a : CloseApproach) :
  approach_of_entry float_of_string cd_to_datetime entry = Ok a →
  ∃ d v, distance a = VFloat d ∧ velocity a = VFloat v ∧ neo a = None.
Proof.
  unfold approach_of_entry.
  destruct (dict_getitem entry "des") as [des|]; [simpl|done].
  destruct (dict_getitem entry "cd") as [cd|]; [simpl|done].
  destruct (dict_getitem entry "dist") as [dist|]; [simpl|done].
  destruct (py_float float_of_string dist) as [d|]; [simpl|done].
  destruct (dict_getitem entry "v_rel") as [v_rel|]; [simpl|done].
  destruct (py_float float_of_string v_rel) as [v|]; [simpl|done].
  unfold CloseApproach_init. kwargs_lookup.
  destruct (cd_to_datetime cd) as [t|]; [simpl|done].
  intros [= <-]. simpl. eauto.
Qed.

Lemma load_approaches_entries_Forall (P : CloseApproach → Prop)
    (entries : list (gmap string pyval)) (acc : list CloseApproach) :
  (∀ entry a, approach_of_entry float_of_string cd_to_datetime entry = Ok a → P a) →
  Forall P acc →
  Forall P (load_approaches_entries float_of_string cd_to_datetime entries acc).
Proof.
  intros HP. revert acc. induction entries as [|entry entries IH]; intros acc Hacc; simpl.
  - done.
  - destruct (approach_of_entry _ _ entry) as [a|e] eqn:Ha; [|done].
    apply IH. apply Forall_app. split; [done|]. constructor; [by eapply HP|constructor].
Qed.

Lemma load_approaches_Forall (P : CloseApproach → Prop) (doc : cad_json)
    (l : list CloseApproach) :
  (∀ entry a, approach_of_entry float_of_string cd_to_datetime entry = Ok a → P a) →
  load_approaches float_of_string cd_to_datetime doc = Some l →
  l ≠ [] ∧ Forall P l.
Proof.
  intros HP. unfold load_approaches.
  destruct (json_data doc) as [[|value data]|]; [done| |done].
  destruct (json_fields doc) as [fields|]; [|done].
  pose proof (load_approaches_entries_Forall P
                ((λ value, py_dict (zip fields value)) <$> (value :: data)) [] HP
                (Forall_nil_2 P)) as H.
  destruct (load_approaches_entries _ _ _ _) as [|a l']; [done|].
  intros [= <-]. done.
Qed.

Lemma load_approaches_numeric (doc : cad_json) (l : list CloseApproach) :
  load_approaches float_of_string cd_to_datetime doc = Some l →
  l ≠ []
  ∧ Forall (λ a, ∃ d v, distance a = VFloat d ∧ velocity a = VFloat v ∧ neo a = None) l.
Proof.
  apply load_approaches_Forall. apply approach_of_entry_numeric.
Qed.

(** X7.  Every approach [load_approaches] returns has a float distance and a
    float velocity and is not linked to a NEO yet; and the list it returns
    is never empty. *)
Theorem loaded_approaches_numeric_unlinked (doc : cad_json) (l : list CloseApproach) :
  load_approaches float_of_string cd_to_datetime doc = Some l →
  l ≠ []
  ∧ Forall (λ a, ∃ d v, distance a = VFloat d ∧ velocity a = VFloat v ∧ neo a = None) l.
Proof. apply load_approaches_numeric. Qed.

(** X8.  On every approach [load_approaches] returns, a date filter and a
    distance or velocity filter with a float reference value return a
    boolean: they never raise. *)
Theorem loaded_approaches_filters_total (doc : cad_json) (l : list CloseApproach)
    (a : CloseApproach) (o : operator) (x : float) (D : date) :
  load_approaches float_of_string cd_to_datetime doc = Some l →
  a ∈ l →
  (∃ b, call {| cls := DistFilter; op := o; value := VFloat x |} a = Ok b)
  ∧ (∃ b, call {| cls := VeloFilter; op := o; value := VFloat x |} a = Ok b)
  ∧ (∃ b, call {| cls := DateFilter; op := o; value := VDate D |} a = Ok b).
Proof.
  intros Hl Ha. apply load_approaches_numeric in Hl as [_ Hl].
  rewrite Forall_forall in Hl. destruct (Hl a Ha) as (d & v & Hd & Hv & _).
  unfold call. simpl. rewrite Hd, Hv. split_and!; destruct o; eexists; reflexivity.
Qed.

(** X9.  On every approach [load_approaches] returns, a diameter or hazardous
    filter raises [AttributeError], whatever its operator and value: these
    filters need the link to the NEO, which the loader does not make. *)
Theorem loaded_approaches_neo_filters_raise (doc : cad_json) (l : list CloseApproach)
    (a : CloseApproach) (o : operator) (v : pyval) :
  load_approaches float_of_string cd_to_datetime doc = Some l →
  a ∈ l →
  call {| cls := DiamFilter; op := o; value := v |} a = Raise AttributeError
  ∧ call {| cls := HazFilter; op := o; value := v |} a = Raise AttributeError.
Proof.
  intros Hl Ha. apply load_approaches_numeric in Hl as [_ Hl].
  rewrite Forall_forall in Hl. destruct (Hl a Ha) as (d & v' & _ & _ & Hneo).
  unfold call, get, neo_attr, linked_neo. rewrite Hneo. done.
Qed.

(** X10.  A distance that is text but no number is not turned into
    not-a-number as a diameter is: the conversion raises, and when that
    entry is the first of the document the loader returns [None], however
    many good entries follow it. *)
Theorem load_approaches_bad_first_distance
    (fields : list string) (value : list pyval) (data : list (list pyval))
    (des cd : pyval) (dist : string) :
  py_dict (zip fields value) !! "des" = Some des →
  py_dict (zip fields value) !! "cd" = Some cd →
  py_dict (zip fields value) !! "dist" = Some (VStr dist) →
  float_of_string dist = None →
  approach_of_entry float_of_string cd_to_datetime (py_dict (zip fields value))
  = Raise ValueError
  ∧ load_approaches float_of_string cd_to_datetime
      (CadJson (Some fields) (Some (value :: data))) = None.
Proof.
  intros Hdes Hcd Hdist Hnum.
  assert (Hraise : approach_of_entry float_of_string cd_to_datetime
                     (py_dict (zip fields value)) = Raise ValueError).
  { unfold approach_of_entry, dict_getitem. rewrite Hdes, Hcd, Hdist. simpl.
    by rewrite Hnum. }
  split; [done|]. unfold load_approaches. simpl. by rewrite Hraise.
Qed.

End ApproachLoaderFacts.

(** ** Filters on the records the constructors build *)

Lemma leb_nan_l (x : float) : PrimFloat.leb nan x = false.
Proof. rewrite FloatAxioms.leb_spec. reflexivity. Qed.

Lemma leb_nan_r (x : float) : PrimFloat.leb x nan = false.
Proof.
  rewrite FloatAxioms.leb_spec. unfold SpecFloat.SFleb, SpecFloat.SFcompare.
  change (FloatOps.Prim2SF nan) with SpecFloat.S754_nan.
  destruct (FloatOps.Prim2SF x) as [| | |[] ? ?]; reflexivity.
Qed.

Lemma eqb_nan_l (x : float) : PrimFloat.eqb nan x = false.
Proof. rewrite FloatAxioms.eqb_spec. reflexivity. Qed.

(** X11.  An object of unknown diameter (not-a-number, as the constructor makes
    it) matches no diameter criterion: whatever the operator and the float
    it is compared with, the filter returns false, and so do the filters
    [create_filters] builds for [diameter_min] and [diameter_max]. *)
Theorem unknown_diameter_never_matches
    (a : CloseApproach) (n : NearEarthObject) (o : operator) (x : float) :
  neo a = Some n →
  diameter n = VFloat nan →
  call {| cls := DiamFilter; op := o; value := VFloat x |} a = Ok false
  ∧ accepts (create_filters VNone VNone VNone VNone VNone VNone VNone
                            (VFloat x) VNone VNone) a = false
  ∧ accepts (create_filters VNone VNone VNone VNone VNone VNone VNone
                            VNone (VFloat x) VNone) a = false.
Proof.
  intros Hneo Hd.
  assert (H : ∀ o', call {| cls := DiamFilter; op := o'; value := VFloat x |} a = Ok false).
  { intros o'. unfold call, get, neo_attr, linked_neo. rewrite Hneo. simpl. rewrite Hd.
    destruct o'; simpl; unfold py_ge, py_le; simpl;
      by rewrite ?eqb_nan_l, ?leb_nan_l, ?leb_nan_r. }
  split_and!; [apply H | |]; rewrite create_filters_unfold; unfold accepts; simpl;
    by rewrite H.
Qed.

Lemma on_or_before_trans (a b c : date) :
  on_or_before a b → on_or_before b c → on_or_before a c.
Proof. unfold on_or_before. lia. Qed.

(** X12.  [start_date] and [end_date] together select a closed range of days:
    both filters return true exactly on the approaches whose day lies
    between the two bounds, the bounds included; when the end is before
    the start no approach passes. *)
Theorem date_range_is_closed_interval (a : CloseApproach) (D1 D2 : date) :
  (Forall (λ f, call f a = Ok true)
          (create_filters VNone (VDate D1) (VDate D2) VNone VNone VNone VNone
                          VNone VNone VNone)
   ↔ on_or_before D1 (date_of (time a)) ∧ on_or_before (date_of (time a)) D2)
  ∧ (¬ on_or_before D1 D2 →
     accepts (create_filters VNone (VDate D1) (VDate D2) VNone VNone VNone VNone
                             VNone VNone VNone) a = false).
Proof.
  set (fs := [ {| cls := DateFilter; op := op_ge; value := VDate D1 |};
               {| cls := DateFilter; op := op_le; value := VDate D2 |} ]).
  assert (Hfs : create_filters VNone (VDate D1) (VDate D2) VNone VNone VNone VNone
                               VNone VNone VNone = fs)
    by (rewrite create_filters_unfold; reflexivity).
  rewrite Hfs.
  assert (Hiff : Forall (λ f, call f a = Ok true) fs
                 ↔ on_or_before D1 (date_of (time a)) ∧ on_or_before (date_of (time a)) D2).
  { unfold fs. rewrite !Forall_cons, Forall_nil. unfold call. simpl. unfold py_ge. simpl.
    rewrite <- !date_leb_le. split.
    - intros ([= H1] & [= H2] & _). done.
    - intros [-> ->]. done. }
  split; [exact Hiff|].
  intros Hempty. destruct (accepts fs a) eqn:Hacc; [|done]. exfalso.
  apply Hempty. pose proof (proj1 (accepts_all fs a) Hacc) as Hall.
  assert (HF : Forall (λ f, call f a = Ok true) fs) by (apply Forall_forall; exact Hall).
  apply Hiff in HF as [H1 H2]. by eapply on_or_before_trans.
Qed.

Section VelocityFacts.
Variable float_of_string : string → option float.
Variable cd_to_datetime : pyval → result datetime.

Lemma CloseApproach_init_velocity (info : gmap string pyval) neo0 (a : CloseApproach) :
  CloseApproach_init float_of_string cd_to_datetime info neo0 = Ok a →
  velocity a = dict_get info "velocity".
Proof.
  unfold CloseApproach_init.
  destruct (cd_to_datetime _) as [t|]; [simpl|done].
  destruct (if is_not_float _ then _ else _) as [d|]; [simpl|done].
  by intros [= <-].
Qed.

(** X13.  An approach constructed with text for its velocity makes a velocity
    bound unusable: the filter for a minimum or a maximum raises
    [TypeError] on it, and the equality filter returns false. *)
Theorem text_velocity_breaks_velocity_bounds
    (info : gmap string pyval) neo0 (a : CloseApproach) (s : string) (x : float) :
  CloseApproach_init float_of_string cd_to_datetime info neo0 = Ok a →
  dict_get info "velocity" = VStr s →
  call {| cls := VeloFilter; op := op_ge; value := VFloat x |} a = Raise TypeError
  ∧ call {| cls := VeloFilter; op := op_le; value := VFloat x |} a = Raise TypeError
  ∧ call {| cls := VeloFilter; op := op_eq; value := VFloat x |} a = Ok false.
Proof.
  intros Ha Hv. apply CloseApproach_init_velocity in Ha. rewrite Hv in Ha.
  unfold call. simpl. rewrite Ha. done.
Qed.

End VelocityFacts.

Lemma filter_for_value (c : filter_class) (o : operator) (v : pyval) :
  value <$> filter_for c o v = List.filter is_not_None [v].
Proof. unfold filter_for. simpl. by destruct (is_not_None v). Qed.

Lemma filter_for_mapping (c : filter_class) (o : operator) (v : pyval) (key : string) :
  (key, (c, o)) ∈ filter_mappings →
  Forall (λ f, ∃ key', (key', (cls f, op f)) ∈ filter_mappings) (filter_for c o v).
Proof.
  intros Hin. unfold filter_for. destruct (is_not_None v); [|constructor].
  constructor; [|constructor]. simpl. eauto.
Qed.

(** X14.  [create_filters] builds one filter per criterion that is not [None],
    and no other: the reference values of the filters are the arguments
    that are not [None], in the order of the parameters, and each filter
    has a class and an operator that [filter_mappings] pairs. *)
Theorem create_filters_one_per_criterion
    (date start_date end_date distance_min distance_max
     velocity_min velocity_max diameter_min diameter_max hazardous : pyval) :
  value <$> create_filters date start_date end_date distance_min distance_max
                           velocity_min velocity_max diameter_min diameter_max hazardous
  = List.filter is_not_None
      [ date; start_date; end_date; distance_min; distance_max;
        velocity_min; velocity_max; diameter_min; diameter_max; hazardous ]
  ∧ Forall (λ f, ∃ key, (key, (cls f, op f)) ∈ filter_mappings)
      (create_filters date start_date end_date distance_min distance_max
                      velocity_min velocity_max diameter_min diameter_max hazardous).
Proof.
  rewrite create_filters_unfold. split.
  - rewrite !fmap_app, !filter_for_value.
    change [ date; start_date; end_date; distance_min; distance_max;
             velocity_min; velocity_max; diameter_min; diameter_max; hazardous ]
      with ([date] ++ [start_date] ++ [end_date] ++ [distance_min] ++ [distance_max]
            ++ [velocity_min] ++ [velocity_max] ++ [diameter_min] ++ [diameter_max]
            ++ [hazardous]).
    by rewrite !List.filter_app.
  - rewrite !Forall_app.
    split_and!;
      [ apply (filter_for_mapping _ _ _ "date") | apply (filter_for_mapping _ _ _ "start_date")
      | apply (filter_for_mapping _ _ _ "end_date")
      | apply (filter_for_mapping _ _ _ "distance_min")
      | apply (filter_for_mapping _ _ _ "distance_max")
      | apply (filter_for_mapping _ _ _ "velocity_min")
      | apply (filter_for_mapping _ _ _ "velocity_max")
      | apply (filter_for_mapping _ _ _ "diameter_min")
      | apply (filter_for_mapping _ _ _ "diameter_max")
      | apply (filter_for_mapping _ _ _ "hazardous") ];
      apply list_elem_of_In; simpl; tauto.
Qed.

(** ** The two exports *)

Section ExportFacts.
Variable float_of_string : string → option float.
Variable datetime_to_str : datetime → string.

Lemma csv_row_of_linked (line : CloseApproach) (n : NearEarthObject) :
  neo line = Some n →
  csv_row datetime_to_str line
  = Ok [ VStr (datetime_to_str (time line));
         distance line;
         velocity line;
         (if truthy (designation n) then designation n else VStr "");
         (if truthy (name n) then name n else VStr "");
         (match diameter n with VNone => VFloat nan | d => d end);
         VStr (if truthy (hazardous n) then "True" else "False") ].
Proof.
  intros Hneo. unfold csv_row, linked_neo. rewrite Hneo. vm_compute. reflexivity.
Qed.

Lemma csv_row_of_unlinked (line : CloseApproach) :
  neo line = None → csv_row datetime_to_str line = Raise AttributeError.
Proof. intros Hneo. unfold csv_row, linked_neo. by rewrite Hneo. Qed.

Lemma json_entry_of_linked (line : CloseApproach) (n : NearEarthObject) :
  neo line = Some n →
  json_entry datetime_to_str line
  = Ok {| json_members :=
            [ ("datetime_utc", VStr (datetime_to_str (time line)));
              ("distance_au", distance line);
              ("velocity_km_s", velocity line) ]%string;
          json_neo :=
            [ ("designation", if truthy (designation n) then designation n else VStr "");
              ("name", if truthy (name n) then name n else VStr "");
              ("diameter_km", match diameter n with VNone => VFloat nan | d => d end);
              ("potentially_hazardous", hazardous n) ]%string |}.
Proof.
  intros Hneo. unfold json_entry, linked_neo. rewrite Hneo. vm_compute. reflexivity.
Qed.

(** X15.  The row export writes the header, then one row for each approach up to
    the first one that has no NEO; there it raises [AttributeError], and
    the header and the rows written before stay in the file.  It ends
    without an exception exactly when every approach has a NEO. *)
Theorem write_to_csv_file_stops_at_unlinked (ca_data : list CloseApproach) :
  ∃ good bad rows,
    ca_data = good ++ bad
    ∧ Forall2 (λ line row, csv_row datetime_to_str line = Ok row) good rows
    ∧ (write_to_csv_file datetime_to_str ca_data).1 = (VStr <$> fieldnames) :: rows
    ∧ match bad with
      | [] => (write_to_csv_file datetime_to_str ca_data).2 = None
              ∧ write_to_csv datetime_to_str ca_data = Ok ((VStr <$> fieldnames) :: rows)
      | line :: _ => neo line = None
                     ∧ (write_to_csv_file datetime_to_str ca_data).2 = Some AttributeError
                     ∧ write_to_csv datetime_to_str ca_data = Raise AttributeError
      end.
Proof.
  unfold write_to_csv_file, write_to_csv. simpl.
  induction ca_data as [|line ca_data (good & bad & rows & Hdata & Hgood & Hrows & Hbad)].
  - exists [], [], []. by split_and!.
  - simpl. destruct (neo line) as [n|] eqn:Hneo.
    + rewrite (csv_row_of_linked line n Hneo). simpl.
      injection Hrows as Hrows. rewrite Hrows.
      eexists (line :: good), bad, (_ :: rows).
      split_and!; [by rewrite Hdata | constructor; [by apply csv_row_of_linked|done] | done |].
      destruct bad as [|l bad].
      * destruct Hbad as [Hnone Hok]. split; [done|].
        destruct (csv_rows datetime_to_str ca_data) as [rs|]; [|done].
        simpl in *. by injection Hok as ->.
      * destruct Hbad as (Hl & Hsome & Hraise). split_and!; [done..|].
        destruct (csv_rows datetime_to_str ca_data) as [rs|e]; [done|].
        simpl in *. by injection Hraise as ->.
    + rewrite (csv_row_of_unlinked line Hneo). simpl.
      exists [], (line :: ca_data), []. by split_and!.
Qed.


(** X17.  The two exports agree on an approach: the six cells before the last in
    the row are the values of the object's members, in the same order; the
    last cell is the text [True] or [False] for the truth value of the
    member [potentially_hazardous], which the object keeps as it is. *)
Theorem exports_agree (line : CloseApproach) (n : NearEarthObject) :
  neo line = Some n →
  ∃ row entry,
    csv_row datetime_to_str line = Ok row
    ∧ json_entry datetime_to_str line = Ok entry
    ∧ fieldnames = (json_members entry ++ json_neo entry).*1
    ∧ take 6 row = take 6 (json_members entry ++ json_neo entry).*2
    ∧ ∃ flag, (json_neo entry).*2 !! 3%nat = Some flag
              ∧ flag = hazardous n
              ∧ row !! 6%nat = Some (VStr (if truthy flag then "True" else "False")).
Proof.
  intros Hneo. eexists _, _.
  split; [by apply csv_row_of_linked|]. split; [by apply json_entry_of_linked|].
  simpl. split_and!; try reflexivity. eexists. split_and!; reflexivity.
Qed.

(** X18.  From a row of the NEO table to the row of the export, for an approach
    linked to the object loaded from that row: the designation comes out
    as it went in, the name too except that a single space comes out
    empty, the diameter is the float of the text or not-a-number, and the
    flag is [True] exactly for the text [Y]. *)
Theorem neo_row_to_csv_row
    (row : gmap string pyval) (n p d h : string) (o : NearEarthObject)
    (line : CloseApproach) :
  row !! "name" = Some (VStr n) →
  row !! "pdes" = Some (VStr p) →
  row !! "diameter" = Some (VStr d) →
  row !! "pha" = Some (VStr h) →
  neo_of_row float_of_string row = Ok o →
  neo line = Some o →
  csv_row datetime_to_str line
  = Ok [ VStr (datetime_to_str (time line));
         distance line;
         velocity line;
         VStr p;
         VStr (if String.eqb n " " then "" else n);
         VFloat (default nan (float_of_string d));
         VStr (if String.eqb h "Y" then "True" else "False") ].
Proof.
  intros Hn Hp Hd Hh Ho Hneo.
  rewrite (neo_of_row_on_text float_of_string row n p d h Hn Hp Hd Hh) in Ho.
  injection Ho as <-. rewrite (csv_row_of_linked line _ Hneo). simpl.
  repeat f_equal;
    repeat match goal with
           | |- context [String.eqb ?u ?v] =>
               destruct (String.eqb_spec u v); subst; simpl in *
           end; done.
Qed.

End ExportFacts.

(** ** The further properties at concrete records *)

Lemma limit_transparent_up_to_cap_witness :
  let source := limit [10; 20; 30] None in
  0 < 2 ∧ (2 ≤ Z.to_nat 2)%nat
  ∧ source_view <$> consume 2 (limit source (Some 2)) = consume 2 source.
Proof.
  split; [lia|]. split; [simpl; lia|].
  apply (limit_transparent_up_to_cap (limit [10; 20; 30] None) 2 2);
    [lia | simpl; lia].
Defined.

Lemma limit_unlimited_transparent_witness :
  (Some 0 = None ∨ Some 0 = Some 0)
  ∧ source_view <$> consume 3 (limit [10; 20] (Some 0)) = consume 3 [10; 20].
Proof.
  split; [by right|].
  apply (limit_unlimited_transparent [10; 20] (Some 0) 3). by right.
Defined.

Lemma limit_never_exceeds_cap_witness :
  2 ≠ 0
  ∧ consume 6 (limit [10; 20; 30; 40; 50] (Some 2))
    = Ok ([10; 20], LimitGen (Some 2) LimitDone [40; 50])
  ∧ (length [10; 20] ≤ Z.to_nat 2)%nat.
Proof.
  split; [lia|]. split; [reflexivity|].
  apply (limit_never_exceeds_cap [10; 20; 30; 40; 50] 2 6 [10; 20]
           (LimitGen (Some 2) LimitDone [40; 50])); [lia | reflexivity].
Defined.

Lemma neo_of_row_text_witness :
  Sample.neo_row " " "" "Y" !! "name" = Some (VStr " ")
  ∧ Sample.neo_row " " "" "Y" !! "pdes" = Some (VStr "433")
  ∧ Sample.neo_row " " "" "Y" !! "diameter" = Some (VStr "")
  ∧ Sample.neo_row " " "" "Y" !! "pha" = Some (VStr "Y")
  ∧ neo_of_row Sample.decimal_literal (Sample.neo_row " " "" "Y") = Ok Sample.blank_neo.
Proof.
  do 4 (split; [reflexivity|]).
  apply (neo_of_row_text Sample.decimal_literal (Sample.neo_row " " "" "Y")
           " " "433" "" "Y"); reflexivity.
Defined.

Lemma load_neos_textual_complete_witness :
  Sample.neo_rows ≠ []
  ∧ Forall textual_row Sample.neo_rows
  ∧ ∃ neos, load_neos Sample.decimal_literal Sample.neo_rows = Some neos
            ∧ Forall2 (λ row o, neo_of_row Sample.decimal_literal row = Ok o)
                      Sample.neo_rows neos.
Proof.
  assert (H : Forall textual_row Sample.neo_rows).
  { apply Forall_cons. split; [by exists "Eros", "433", "16.84", "N"|].
    apply Forall_cons. split; [by exists " ", "433", "", "Y"|]. apply Forall_nil_2. }
  split; [discriminate|]. split; [exact H|].
  apply (load_neos_textual_complete Sample.decimal_literal Sample.neo_rows); [discriminate|exact H].
Defined.

Lemma loaded_approaches_numeric_unlinked_witness :
  load_approaches Sample.decimal_literal Sample.cd_to_datetime Sample.cad_doc
  = Some Sample.cad_approaches
  ∧ Sample.cad_approaches ≠ []
  ∧ Forall (λ a, ∃ d v, distance a = VFloat d ∧ velocity a = VFloat v ∧ neo a = None)
           Sample.cad_approaches.
Proof.
  split; [reflexivity|].
  apply (loaded_approaches_numeric_unlinked Sample.decimal_literal Sample.cd_to_datetime
           Sample.cad_doc Sample.cad_approaches).
  reflexivity.
Defined.

Lemma loaded_approaches_filters_total_witness :
  load_approaches Sample.decimal_literal Sample.cd_to_datetime Sample.cad_doc
  = Some Sample.cad_approaches
  ∧ Sample.approach_at Sample.noon 0.5 None ∈ Sample.cad_approaches
  ∧ ∃ b, call {| cls := DistFilter; op := op_le; value := VFloat 0.25 |}
              (Sample.approach_at Sample.noon 0.5 None) = Ok b.
Proof.
  split; [reflexivity|]. split; [left|].
  apply (loaded_approaches_filters_total Sample.decimal_literal Sample.cd_to_datetime
           Sample.cad_doc Sample.cad_approaches (Sample.approach_at Sample.noon 0.5 None)
           op_le 0.25 (Date 2020 1 1)); [reflexivity | left].
Defined.

Lemma loaded_approaches_neo_filters_raise_witness :
  load_approaches Sample.decimal_literal Sample.cd_to_datetime Sample.cad_doc
  = Some Sample.cad_approaches
  ∧ Sample.approach_at Sample.noon 0.5 None ∈ Sample.cad_approaches
  ∧ call {| cls := HazFilter; op := op_eq; value := VBool false |}
         (Sample.approach_at Sample.noon 0.5 None) = Raise AttributeError.
Proof.
  split; [reflexivity|]. split; [left|].
  apply (loaded_approaches_neo_filters_raise Sample.decimal_literal Sample.cd_to_datetime
           Sample.cad_doc Sample.cad_approaches (Sample.approach_at Sample.noon 0.5 None)
           op_eq (VBool false)); [reflexivity | left].
Defined.

Lemma load_approaches_bad_first_distance_witness :
  let value := Sample.cad_value "2020-01-01 12:00" "unknown" "5.5" in
  py_dict (zip Sample.cad_fields value) !! "des" = Some (VStr "433")
  ∧ py_dict (zip Sample.cad_fields value) !! "cd" = Some (VStr "2020-01-01 12:00")
  ∧ py_dict (zip Sample.cad_fields value) !! "dist" = Some (VStr "unknown")
  ∧ Sample.decimal_literal "unknown" = None
  ∧ load_approaches Sample.decimal_literal Sample.cd_to_datetime
      (CadJson (Some Sample.cad_fields)
               (Some [value; Sample.cad_value "2021-03-04 05:06" "0.25" "7.5"]))
    = None.
Proof.
  do 4 (split; [reflexivity|]).
  apply (load_approaches_bad_first_distance Sample.decimal_literal Sample.cd_to_datetime
           Sample.cad_fields (Sample.cad_value "2020-01-01 12:00" "unknown" "5.5")
           [Sample.cad_value "2021-03-04 05:06" "0.25" "7.5"]
           (VStr "433") (VStr "2020-01-01 12:00") "unknown"); reflexivity.
Defined.

Lemma unknown_diameter_never_matches_witness :
  let a := Sample.approach_at Sample.noon 0.5 (Some Sample.blank_neo) in
  neo a = Some Sample.blank_neo
  ∧ diameter Sample.blank_neo = VFloat nan
  ∧ call {| cls := DiamFilter; op := op_le; value := VFloat 1 |} a = Ok false.
Proof.
  split; [reflexivity|]. split; [reflexivity|].
  apply (unknown_diameter_never_matches
           (Sample.approach_at Sample.noon 0.5 (Some Sample.blank_neo))
           Sample.blank_neo op_le 1); reflexivity.
Defined.

Lemma text_velocity_breaks_velocity_bounds_witness :
  CloseApproach_init Sample.decimal_literal Sample.cd_to_datetime
    (Sample.approach_info (VStr "fast")) None
  = Ok {| _designation := VStr "433"; time := Sample.noon; distance := VFloat 0.5;
          velocity := VStr "fast"; neo := None |}
  ∧ dict_get (Sample.approach_info (VStr "fast")) "velocity" = VStr "fast"
  ∧ call {| cls := VeloFilter; op := op_ge; value := VFloat 5 |}
         {| _designation := VStr "433"; time := Sample.noon; distance := VFloat 0.5;
            velocity := VStr "fast"; neo := None |}
    = Raise TypeError.
Proof.
  split; [reflexivity|]. split; [reflexivity|].
  apply (text_velocity_breaks_velocity_bounds Sample.decimal_literal Sample.cd_to_datetime
           (Sample.approach_info (VStr "fast")) None _ "fast" 5); reflexivity.
Defined.

Lemma exports_agree_witness :
  let line := Sample.approach_at Sample.noon 0.5 (Some Sample.unnamed) in
  neo line = Some Sample.unnamed
  ∧ ∃ row entry,
      csv_row Sample.datetime_to_str line = Ok row
      ∧ json_entry Sample.datetime_to_str line = Ok entry
      ∧ fieldnames = (json_members entry ++ json_neo entry).*1
      ∧ take 6 row = take 6 (json_members entry ++ json_neo entry).*2
      ∧ ∃ flag, (json_neo entry).*2 !! 3%nat = Some flag
                ∧ flag = hazardous Sample.unnamed
                ∧ row !! 6%nat = Some (VStr (if truthy flag then "True" else "False")).
Proof.
  split; [reflexivity|].
  apply (exports_agree Sample.datetime_to_str
           (Sample.approach_at Sample.noon 0.5 (Some Sample.unnamed)) Sample.unnamed).
  reflexivity.
Defined.

Lemma neo_row_to_csv_row_witness :
  let row := Sample.neo_row " " "" "Y" in
  let line := Sample.approach_at Sample.noon 0.5 (Some Sample.blank_neo) in
  row !! "name" = Some (VStr " ")
  ∧ row !! "pdes" = Some (VStr "433")
  ∧ row !! "diameter" = Some (VStr "")
  ∧ row !! "pha" = Some (VStr "Y")
  ∧ neo_of_row Sample.decimal_literal row = Ok Sample.blank_neo
  ∧ neo line = Some Sample.blank_neo
  ∧ csv_row Sample.datetime_to_str line
    = Ok [ VStr "2020-01-01 12:00"; VFloat 0.5; VFloat 5.5; VStr "433"; VStr "";
           VFloat nan; VStr "True" ].
Proof.
  do 6 (split; [reflexivity|]).
  apply (neo_row_to_csv_row Sample.decimal_literal Sample.datetime_to_str
           (Sample.neo_row " " "" "Y") " " "433" "" "Y" Sample.blank_neo
           (Sample.approach_at Sample.noon 0.5 (Some Sample.blank_neo))); reflexivity.
Defined.
